(** * vectoria: the FastText vector-store compiler of [Embeddings.py]

    A shallow embedding of [CharacterTrigramFastText.__init__]
    (src/vectoria/Embeddings.py, lines 95-141): the header parse, the
    preallocation of the memory-mapped matrix, the streaming pass over the
    lines of the vector file, the zeroing of the pad row, the publication
    of the compiled store by a rename, and the read-only reopening.

    Conventions.
    - A Python [str] is a [string]; every [ascii] stands for one decoded
      character (code points below 256), the text being what Python's
      text layer delivers (newlines already translated to LF).
    - A Python [int] is a [Z].
    - Exceptions are values of [exn]; code that may raise returns a
      [result].
    - The file system is a finite map from paths to files. *)

From Stdlib Require Import ZArith QArith Ascii String List Lia.
From stdpp Require Import gmap strings list.

Local Open Scope string_scope.
Local Open Scope Z_scope.

(** ** Exceptions and results *)

Inductive exn : Set :=
| ValueError
| IndexError
| FileNotFoundError
| OSError.

Inductive result (A : Type) : Type :=
| Ok (a : A)
| Raise (e : exn).
Arguments Ok {A} a.
Arguments Raise {A} e.

#[global] Instance result_ret : MRet result := fun A a => Ok a.

#[global] Instance result_bind : MBind result := fun A B k r =>
  match r with
  | Ok a => k a
  | Raise e => Raise e
  end.

(** [try: body except ValueError: pass]; [s] is the state the body
    leaves behind when it raises. *)
Definition except_ValueError_pass {S : Type} (s : S) (body : result S) : result S :=
  match body with
  | Raise ValueError => Ok s
  | r => r
  end.

(** ** Python strings *)

Module Py.

(** [str.isspace] on one character, for code points below 256:
    TAB, LF, VT, FF, CR, the separators 0x1c-0x1f, SPACE, NEL and NBSP. *)
Definition isspace (c : ascii) : bool :=
  let n := nat_of_ascii c in
  ((9 <=? n) && (n <=? 13) || (28 <=? n) && (n <=? 32)
   || (n =? 133) || (n =? 160))%nat.

(** [s.split()]: maximal runs of non-whitespace characters, in order. *)
Fixpoint split (s : string) : list string :=
  match s with
  | EmptyString => []
  | String c s' =>
      if isspace c then split s'
      else
        match s' with
        | EmptyString => [String c EmptyString]
        | String c' _ =>
            if isspace c' then String c EmptyString :: split s'
            else
              match split s' with
              | w :: ws => String c w :: ws
              | [] => [String c EmptyString]
              end
        end
  end.

Definition LF : ascii := ascii_of_nat 10.

(** Iterating a text file: the lines, each with its terminating LF
    (the last one may lack it). *)
Fixpoint lines (s : string) : list string :=
  match s with
  | EmptyString => []
  | String c s' =>
      if Ascii.eqb c LF then String c EmptyString :: lines s'
      else
        match lines s' with
        | l :: ls => String c l :: ls
        | [] => [String c EmptyString]
        end
  end.

(** [f.readline()] on a freshly opened file: the first line, or the
    empty string at end of file. *)
Definition readline (s : string) : string := hd EmptyString (lines s).

Definition is_digit (c : ascii) : bool :=
  let n := nat_of_ascii c in ((48 <=? n) && (n <=? 57))%nat.

Definition digit_value (c : ascii) : Z := Z.of_nat (nat_of_ascii c) - 48.

Definition underscore : ascii := ascii_of_nat 95.

(** The digits of an integer literal after its sign: decimal digits,
    single underscores allowed between two digits (PEP 515).
    [acc] is the value read so far, [prev_digit] tells whether the
    previous character was a digit. *)
Fixpoint int_digits (acc : Z) (prev_digit : bool) (s : string) : option Z :=
  match s with
  | EmptyString => if prev_digit then Some acc else None
  | String c s' =>
      if is_digit c then int_digits (10 * acc + digit_value c) true s'
      else if Ascii.eqb c underscore && prev_digit then int_digits acc false s'
      else None
  end.

(** [int(s)] for a string without surrounding whitespace: an optional
    sign and a non-empty run of digits; [ValueError] otherwise. *)
Definition int (s : string) : result Z :=
  let parse (neg : bool) (body : string) :=
    match int_digits 0 false body with
    | Some n => Ok (if neg then - n else n)
    | None => Raise ValueError
    end in
  match s with
  | String "-" body => parse true body
  | String "+" body => parse false body
  | _ => parse false s
  end.

(** [s.lstrip()], [s.rstrip()] and [s.strip()]. *)
Fixpoint lstrip (s : string) : string :=
  match s with
  | EmptyString => EmptyString
  | String c s' => if isspace c then lstrip s' else s
  end.

Fixpoint rstrip (s : string) : string :=
  match s with
  | EmptyString => EmptyString
  | String c s' =>
      match rstrip s' with
      | EmptyString => if isspace c then EmptyString else String c EmptyString
      | r => String c r
      end
  end.

Definition strip (s : string) : string := rstrip (lstrip s).

(** [int(s)] for any string: surrounding whitespace is dropped first. *)
Definition int_of_str (s : string) : result Z := int (strip s).

End Py.

(** No character of [w] is whitespace. *)
Fixpoint nospace (w : string) : Prop :=
  match w with
  | EmptyString => True
  | String c w' => Py.isspace c = false /\ nospace w'
  end.

(** A field of [split]: non-empty and free of whitespace. *)
Definition is_field (w : string) : Prop := w <> EmptyString /\ nospace w.

(** ** The sequencer collaborator *)

Module Sequencers.

Section Hasher.
(** The spec leaves the trigram hash, the fold multiplier, the boundary
    sentinel and the pad token open; they are parameters here. *)
Variable trigram_hash : ascii -> ascii -> ascii -> Z.
Variable P : Z.
Variable sentinel : ascii.
Variable pad_token : string.

(** Modelled from the spec: step 1 of [token_to_id] of the module
    Sequencers, which is not among the sources; the token is wrapped
    with the sentinel character at start and end. *)
Definition wrap (token : string) : string :=
  String sentinel (token +:+ String sentinel EmptyString).

(** Modelled from the spec: step 2 of [token_to_id] (module Sequencers,
    absent from the sources); all overlapping 3-character windows. *)
Fixpoint windows (s : string) : list (ascii * ascii * ascii) :=
  match s with
  | String a (String b (String c _) as s') => (a, b, c) :: windows s'
  | _ => []
  end.

(** Modelled from the spec: step 3 of [token_to_id] (module Sequencers,
    absent from the sources); the order-dependent fold
    [acc = acc * P + hash(window)]. *)
Definition fold_windows (ws : list (ascii * ascii * ascii)) : Z :=
  fold_left (fun acc '(a, b, c) => acc * P + trigram_hash a b c) ws 0.

(** Modelled from the spec: [token_to_id(token, vocab_size)] of the
    module Sequencers, absent from the sources; the empty token and the
    pad token go to 0, every other token to the fold of its window
    hashes reduced modulo [vocab_size]. *)
Definition token_to_id (token : string) (vocab_size : Z) : Z :=
  if decide (token = EmptyString \/ token = pad_token) then 0
  else fold_windows (windows (wrap token)) mod vocab_size.

(** The size of the hash space of the sequencer. The constructor call
    of line 98 passes [maxlen] only, so this is a constant of the
    sequencer, not the [words] of any header. *)
Variable vocab_size : Z.

(** Modelled from the spec: the truncation and right-padding policy of
    [Sequencer.transform] (module Sequencers, absent from the sources):
    the first [max_len] ids, then 0 up to [max_len]. *)
Definition pad_sequence (max_len : nat) (ids : list Z) : list Z :=
  take max_len ids ++ replicate (max_len - length ids) 0.

(** Modelled from the spec: [Sequencer.transform(documents, max_len)]
    of the module Sequencers, absent from the sources; one row per
    document, from its whitespace-split tokens. *)
Definition transform (documents : list string) (max_len : nat) : list (list Z) :=
  (fun doc =>
     pad_sequence max_len ((fun t => token_to_id t vocab_size) <$> Py.split doc))
    <$> documents.
End Hasher.

End Sequencers.

(** ** Embeddings.py *)

(** A path, as [pathlib] has normalised it: the file name without its
    suffix, and the suffix. Two paths are equal exactly when they name
    the same file. *)
Abbreviation Path := (string * string)%type.

Definition with_suffix (p : Path) (suffix : string) : Path := (p.1, suffix).

(** [download_path(flavor, language)]: the file
    [<language>/<language>-<flavor>.vec] under the package directory.
    The language is taken as the plain directory name that the
    docstring asks for (a two letter code); for a language such as
    [./en], which [pathlib] collapses to [en], the path of the code is
    the normal form of this one. *)
Definition download_path (flavor language : string) : Path :=
  (language +:+ "/" +:+ language +:+ "-" +:+ flavor, ".vec").

(** A file holds text or a flat array of [float32] (row-major). *)
Inductive file (float32 : Type) : Type :=
| Text (s : string)
| Array (v : list float32).
Arguments Text {float32} s.
Arguments Array {float32} v.

(** A two dimensional array: its rows. *)
Abbreviation ndarray float32 := (list (list float32)).

(** What [requests.get(url, stream=True)] hands to lines 103-112: the
    [content-length] header when there is one, the chunks that
    [r.iter_content] yields, and the exception that ends the iteration
    after them when the connection breaks. *)
Record response : Type := {
  content_length : option string;
  iter_content : list string;
  iter_error : option exn
}.

Section Embeddings.
(** numpy's [float32]: the values, [np.float32(s)] on a string
    ([None] is its [ValueError]) and the zero of [np.zeros]. *)
Variable float32 : Type.
Variable np_float32 : string -> option float32.
Variable zero : float32.

(** The sequencer of [Sequencers.CharacterTrigramSequencer]. *)
Variable trigram_hash : ascii -> ascii -> ascii -> Z.
Variable P : Z.
Variable sentinel : ascii.
Variable pad_token : string.
Variable vocab_size : Z.

(** The file system. *)
Abbreviation FS := (gmap Path (file float32)).

(** [open(p, 'r')] followed by reading the whole text. A float array
    is not text of the model: its bytes fail to decode. *)
Definition read_text (fs : FS) (p : Path) : result string :=
  match fs !! p with
  | Some (Text s) => Ok s
  | Some (Array _) => Raise ValueError
  | None => Raise FileNotFoundError
  end.

(** Lines 117-118 and 138-139:
    [words, dimensions = map(int, first_line.split())]. *)
Definition parse_header (first_line : string) : result (Z * Z) :=
  ints ← mapM Py.int (Py.split first_line);
  match ints with
  | [words; dimensions] => Ok (words, dimensions)
  | _ => Raise ValueError
  end.

Definition np_zeros (n : nat) : list float32 := replicate n zero.

(** [np.memmap(p, dtype='float32', mode='w+', shape=(words, dimensions))]:
    the file is created or truncated and extended with zero bytes to
    [words * dimensions] floats; an empty or negative shape is refused,
    the file created so far stays behind. *)
Definition np_memmap_w (fs : FS) (p : Path) (words dimensions : Z)
  : FS * result (ndarray float32) :=
  let fs' := <[p := Array (np_zeros (Z.to_nat (words * dimensions)))]> fs in
  if (0 <? words) && (0 <? dimensions)
  then (fs', Ok (replicate (Z.to_nat words) (np_zeros (Z.to_nat dimensions))))
  else (fs', Raise (if words * dimensions <=? 0 then OSError else ValueError)).

(** An integer index on an axis of length [n]: negative indices count
    from the end, anything outside [-n, n) is an [IndexError]. *)
Definition normalize_index (n : nat) (i : Z) : result nat :=
  if (0 <=? i) && (i <? Z.of_nat n) then Ok (Z.to_nat i)
  else if (- Z.of_nat n <=? i) && (i <? 0) then Ok (Z.to_nat (i + Z.of_nat n))
  else Raise IndexError.

(** [a[i]] on a two dimensional array. *)
Definition getitem (a : ndarray float32) (i : Z) : result (list float32) :=
  r ← normalize_index (length a) i;
  match a !! r with
  | Some row => Ok row
  | None => Raise IndexError
  end.

(** Broadcasting a one dimensional value into a row of [d] entries:
    equal shapes, or a single entry repeated; [ValueError] otherwise. *)
Definition broadcast (d : nat) (numbers : list float32) : result (list float32) :=
  if decide (length numbers = d) then Ok numbers
  else match numbers with
       | [x] => Ok (replicate d x)
       | _ => Raise ValueError
       end.

(** [a[i] = numbers] on an array with rows of [d] entries: the index is
    checked first, then the value is broadcast and the row overwritten. *)
Definition setitem (d : nat) (a : ndarray float32) (i : Z) (numbers : list float32)
  : result (ndarray float32) :=
  r ← normalize_index (length a) i;
  row ← broadcast d numbers;
  Ok (<[r := row]> a).

(** [np.array(list(map(np.float32, values)))]. *)
Definition parse_numbers (values : list string) : result (list float32) :=
  mapM (fun s => match np_float32 s with
                 | Some x => Ok x
                 | None => Raise ValueError
                 end) values.

(** [sequencer.transform([token])[0][0]] (line 125). *)
Definition transform_0_0 (maxlen : nat) (token : string) : result Z :=
  match Sequencers.transform trigram_hash P sentinel pad_token vocab_size
          [token] maxlen with
  | (word :: _) :: _ => Ok word
  | _ => Raise IndexError
  end.

(** The body of the loop, lines 123-130. *)
Definition loop_body (maxlen : nat) (dimensions : Z) (embeddings : ndarray float32)
    (line : string) : result (ndarray float32) :=
  let segments := Py.split line in
  if dimensions <? Z.of_nat (length segments) then
    match segments with
    | [] => Raise IndexError
    | token :: values =>
        if (2 <? String.length token)%nat then
          word ← transform_0_0 maxlen token;
          except_ValueError_pass embeddings
            (numbers ← parse_numbers values;
             setitem (Z.to_nat dimensions) embeddings word numbers)
        else Ok embeddings
    end
  else Ok embeddings.

(** The loop of line 121 over the lines of the file: the array as the
    loop leaves it, and the exception that ended it, if any. *)
Fixpoint stream (maxlen : nat) (dimensions : Z) (embeddings : ndarray float32)
    (lines : list string) : ndarray float32 * result unit :=
  match lines with
  | [] => (embeddings, Ok ())
  | line :: lines' =>
      match loop_body maxlen dimensions embeddings line with
      | Ok embeddings' => stream maxlen dimensions embeddings' lines'
      | Raise e => (embeddings, Raise e)
      end
  end.

(** [Path.rename]: the target is replaced. *)
Definition rename (fs : FS) (src dst : Path) : FS * result unit :=
  match fs !! src with
  | Some f => (<[dst := f]> (delete src fs), Ok ())
  | None => (fs, Raise FileNotFoundError)
  end.

(** What is in the mapped file for the array [a]. *)
Definition flat (a : ndarray float32) : file float32 := Array (concat a).

(** Lines 119-135: from the preallocation to the publication, for the
    [words] and [dimensions] of the header. *)
Definition compile_rows (maxlen : nat) (vectors_path final_path : Path)
    (words dimensions : Z) (fs : FS) : FS * result unit :=
  let tmp := with_suffix final_path ".tmp" in
  match np_memmap_w fs tmp words dimensions with
  | (fs1, Raise e) => (fs1, Raise e)
  | (fs1, Ok embeddings) =>
      match read_text fs1 vectors_path with
      | Raise e => (fs1, Raise e)
      | Ok f =>
          match stream maxlen dimensions embeddings (Py.lines f) with
          | (embeddings1, Raise e) => (<[tmp := flat embeddings1]> fs1, Raise e)
          | (embeddings1, Ok _) =>
              match setitem (Z.to_nat dimensions) embeddings1 0
                      (np_zeros (Z.to_nat dimensions)) with
              | Raise e => (<[tmp := flat embeddings1]> fs1, Raise e)
              | Ok embeddings2 =>
                  rename (<[tmp := flat embeddings2]> fs1) tmp final_path
              end
          end
      end
  end.

(** Lines 116-135: compiling the vector file into the store. *)
Definition compile (maxlen : nat) (vectors_path final_path : Path) (fs : FS)
  : FS * result unit :=
  match f ← read_text fs vectors_path; parse_header (Py.readline f) with
  | Raise e => (fs, Raise e)
  | Ok (words, dimensions) =>
      compile_rows maxlen vectors_path final_path words dimensions fs
  end.

(** The rows of a flat array read with shape [(w, d)]. *)
Definition reshape (w d : nat) (v : list float32) : ndarray float32 :=
  (fun r => take d (drop (r * d) v)) <$> seq 0 w.

(** [np.memmap(p, dtype='float32', mode='r', shape=(words, dimensions))]:
    the file must exist and hold at least [words * dimensions] floats. *)
Definition np_memmap_r (fs : FS) (p : Path) (words dimensions : Z)
  : result (ndarray float32) :=
  match fs !! p with
  | None => Raise FileNotFoundError
  | Some (Text _) => Raise ValueError
  | Some (Array v) =>
      if (0 <? words) && (0 <? dimensions)
         && (words * dimensions <=? Z.of_nat (length v))
      then Ok (reshape (Z.to_nat words) (Z.to_nat dimensions) v)
      else Raise ValueError
  end.

(** Lines 137-141: opening the compiled store. *)
Definition open_store (vectors_path final_path : Path) (fs : FS)
  : result (ndarray float32) :=
  f ← read_text fs vectors_path;
  '(words, dimensions) ← parse_header (Py.readline f);
  np_memmap_r fs final_path words dimensions.

(** [CharacterTrigramFastText.__init__], without the download and the
    keras model: the store is compiled if it is not there, then opened;
    the result is [self.embeddings]. *)
Definition init (language : string) (maxlen : nat) (fs : FS)
  : FS * result (ndarray float32) :=
  let vectors_path := download_path "fasttext" language in
  let final_path := with_suffix vectors_path ".numpy" in
  let '(fs', r) :=
    match fs !! final_path with
    | None => compile maxlen vectors_path final_path fs
    | Some _ => (fs, Ok ())
    end in
  (fs', _ ← r; open_store vectors_path final_path fs').

(** Lines 100-113: the download of the vector file when it is not
    there. The progress bar is left out; [total_size] only feeds it,
    but it is computed before anything is written. *)
Definition download (vectors_path : Path) (r : response) (fs : FS)
  : FS * result unit :=
  match fs !! vectors_path with
  | Some _ => (fs, Ok ())
  | None =>
      match (match content_length r with
             | Some s => Py.int_of_str s
             | None => Ok 0
             end) with
      | Raise e => (fs, Raise e)
      | Ok total_size =>
          let tmp := with_suffix vectors_path ".tmp" in
          let f :=
            fold_left (fun f data =>
                         match data with
                         | EmptyString => f
                         | _ => f +:+ data
                         end) (iter_content r) EmptyString in
          let fs1 := <[tmp := Text f]> fs in
          match iter_error r with
          | Some e => (fs1, Raise e)
          | None => rename fs1 tmp vectors_path
          end
      end
  end.

(** [CharacterTrigramFastText.__init__], lines 95-141: download if
    needed, compile if needed, open. *)
Definition construct (language : string) (maxlen : nat) (r : response) (fs : FS)
  : FS * result (ndarray float32) :=
  match download (download_path "fasttext" language) r fs with
  | (fs1, Raise e) => (fs1, Raise e)
  | (fs1, Ok _) => init language maxlen fs1
  end.

(** ** What the statements below speak of *)

(** An array of shape [(w, d)]. *)
Definition shaped (w d : nat) (a : ndarray float32) : Prop :=
  length a = w /\ Forall (fun row => length row = d) a.

(** The token of [line] is hashed to [id] and [numbers] are to be stored
    there: the line passes the test of line 124 and all its values are
    read by [np.float32]. *)
Definition stores (dimensions : Z) (line : string) (id : Z)
    (numbers : list float32) : Prop :=
  exists token values,
    Py.split line = token :: values
    /\ dimensions < Z.of_nat (length (token :: values))
    /\ (2 < String.length token)%nat
    /\ parse_numbers values = Ok numbers
    /\ id = Sequencers.token_to_id trigram_hash P sentinel pad_token token vocab_size.

(** [line] stores [numbers] at [id] and they fill a row: there are
    exactly [dimensions] of them. *)
Definition writes (dimensions : Z) (line : string) (id : Z)
    (numbers : list float32) : Prop :=
  stores dimensions line id numbers /\ length numbers = Z.to_nat dimensions.

(** [line] asks for a row beyond the [words] rows of the array. *)
Definition overflows (words dimensions : Z) (line : string) : Prop :=
  exists id numbers, stores dimensions line id numbers /\ words <= id.

(** The loop skips [line]: on every array of shape [(words, dimensions)]
    the body raises nothing and changes nothing. *)
Definition skips (maxlen : nat) (words dimensions : Z) (line : string) : Prop :=
  forall embeddings,
    shaped (Z.to_nat words) (Z.to_nat dimensions) embeddings ->
    loop_body maxlen dimensions embeddings line = Ok embeddings.

(** The three reasons the spec gives for skipping a line. *)
Definition too_few_fields (dimensions : Z) (line : string) : Prop :=
  Z.of_nat (length (Py.split line)) < dimensions + 1.

Definition token_too_short (line : string) : Prop :=
  (String.length (hd EmptyString (Py.split line)) < 3)%nat.

Definition some_value_unparsable (line : string) : Prop :=
  exists v, v ∈ tail (Py.split line) /\ np_float32 v = None.

(** One more: more than [dimensions] values after the token. *)
Definition too_many_values (dimensions : Z) (line : string) : Prop :=
  dimensions + 1 < Z.of_nat (length (Py.split line)).

End Embeddings.

(** * Worked scenarios *)

Module Scenario.

(** A stand-in for [np.float32] on plain decimal literals (an optional
    sign, digits, at most one point): the value, kept exactly. *)
Fixpoint decimal_digits (mant : Z) (scale : option positive) (seen : bool)
    (s : string) : option Q :=
  match s with
  | EmptyString =>
      if seen then Some (Qred (Qmake mant (default 1%positive scale))) else None
  | String c s' =>
      if Py.is_digit c
      then decimal_digits (10 * mant + Py.digit_value c)
             (Pos.mul 10 <$> scale) true s'
      else match scale with
           | None => if Ascii.eqb c "." then decimal_digits mant (Some 1%positive) seen s'
                     else None
           | Some _ => None
           end
  end.

Definition decimal (s : string) : option Q :=
  match s with
  | String "-" body => Qopp <$> decimal_digits 0 None false body
  | String "+" body => decimal_digits 0 None false body
  | _ => decimal_digits 0 None false s
  end.

(** A trigram hash: the three code points as a number in base 256. *)
Definition hash3 (a b c : ascii) : Z :=
  (Z.of_nat (nat_of_ascii a) * 256 + Z.of_nat (nat_of_ascii b)) * 256
  + Z.of_nat (nat_of_ascii c).

Definition token_id (vocab_size : Z) (token : string) : Z :=
  Sequencers.token_to_id hash3 31 "#" "<pad>" token vocab_size.

(** The file system holding the text [f] as the English vector file. *)
Definition vectors_path : Path := download_path "fasttext" "en".
Definition final_path : Path := with_suffix vectors_path ".numpy".
Definition tmp_path : Path := with_suffix final_path ".tmp".
Definition fs_of (f : string) : gmap Path (file Q) := {[ vectors_path := Text f ]}.

(** The code under test, with a sequencer of hash-space size
    [vocab_size]. *)
Definition compile (vocab_size : Z) :=
  compile Q decimal 0%Q hash3 31 "#" "<pad>" vocab_size.

Definition init (vocab_size : Z) :=
  init Q decimal 0%Q hash3 31 "#" "<pad>" vocab_size.

Definition loop_body (vocab_size : Z) :=
  loop_body Q decimal hash3 31 "#" "<pad>" vocab_size.

Definition stream (vocab_size : Z) :=
  stream Q decimal hash3 31 "#" "<pad>" vocab_size.

Definition transform_0_0 (vocab_size : Z) :=
  transform_0_0 hash3 31 "#" "<pad>" vocab_size.

Definition skips (vocab_size : Z) :=
  skips Q decimal hash3 31 "#" "<pad>" vocab_size.

Definition overflows (vocab_size : Z) :=
  overflows Q decimal hash3 31 "#" "<pad>" vocab_size.

Definition LF : string := String Py.LF EmptyString.

(** The source file of the spec's scenario: 3 rows of 2 entries. *)
Definition hello_hi : string :=
  "3 2" +:+ LF +:+ "hello 1.0 2.0" +:+ LF +:+ "hi 3.0 4.0" +:+ LF.

(** A file of 5 rows of 1 entry. *)
Definition world : string := "5 1" +:+ LF +:+ "world 0.5" +:+ LF.

(** A file of 10 rows of 2 entries. *)
Definition ten : string := "10 2" +:+ LF +:+ "matrix 1.0 2.0" +:+ LF.

(** The store compiled from [ten] with a hash space of 10: the token
    [matrix] has the id 9. *)
Definition store_ten : ndarray Q :=
  replicate 9 [0%Q; 0%Q] ++ [[1%Q; 2%Q]].

(** A line with three values, for rows of two entries. *)
Definition three_values : string := "hello 1.0 2.0 3.0".


(** A file without a header. *)
Definition headless : string := "hello 1.0 2.0" +:+ LF.

(** The array of 3 rows of 2 zeros. *)
Definition zeros_3x2 : ndarray Q := replicate 3 (replicate 2 0%Q).

(** A second vector file with the text of [hello_hi], next to a stale
    temporary file. *)
Definition vectors_path_fr : Path := download_path "fasttext" "fr".
Definition final_path_fr : Path := with_suffix vectors_path_fr ".numpy".
Definition fs_fr : gmap Path (file Q) :=
  {[ vectors_path_fr := Text hello_hi;
     with_suffix final_path_fr ".tmp" := Array [5%Q; 5%Q] ]}.

(** A large hash space, and one of the size of the 3-row array. *)
Definition large : Z := 1000000.
Definition small : Z := 3.

(** A server answering with the text of [hello_hi] in three chunks,
    one of them empty. *)
Definition served : response :=
  {| content_length := Some " 31 ";
     iter_content := ["3 2" +:+ LF; ""; "hello 1.0 2.0" +:+ LF +:+ "hi 3.0 4.0" +:+ LF];
     iter_error := None |}.

(** The same answer, cut after the first chunk. *)
Definition cut : response :=
  {| content_length := Some "31";
     iter_content := ["3 2" +:+ LF];
     iter_error := Some OSError |}.

Definition download := download Q.

Definition construct (vocab_size : Z) :=
  construct Q decimal 0%Q hash3 31 "#" "<pad>" vocab_size.

Definition writes (vocab_size : Z) :=
  writes Q decimal hash3 31 "#" "<pad>" vocab_size.

(** Two lines for the same row, then one for another row; the hash
    space has 10 ids, [matrix] and [and] both get the id 9. *)
Definition collide : string :=
  "10 2" +:+ LF +:+ "matrix 1.0 2.0" +:+ LF +:+ "and 3.0 4.0" +:+ LF
  +:+ "world 5.0 6.0" +:+ LF.

(** The three lines of [collide] after its header, and the file system
    after its compilation with a hash space of 10. *)
Definition collide_lines : list string :=
  ["10 2" +:+ LF; "matrix 1.0 2.0" +:+ LF; "and 3.0 4.0" +:+ LF;
   "world 5.0 6.0" +:+ LF].

Definition fs_collide : gmap Path (file Q) :=
  (compile 10 1024 vectors_path final_path (fs_of collide)).1.

(** The file system after the compilation of [hello_hi] with a hash
    space of 3, and the same without the vector file. *)
Definition fs_compiled : gmap Path (file Q) :=
  (compile small 1024 vectors_path final_path (fs_of hello_hi)).1.

Definition fs_store_only : gmap Path (file Q) := delete vectors_path fs_compiled.

(** The vector file [ten] next to a store of 3 floats. *)
Definition fs_stale : gmap Path (file Q) :=
  {[ vectors_path := Text ten; final_path := Array [1%Q; 2%Q; 3%Q] ]}.

(** A file of one column whose header has a first field of three
    characters. *)
Definition one_column : string := "100 1" +:+ LF +:+ "hello 0.5" +:+ LF.

End Scenario.

(** * Properties *)

(** ** Splitting *)

Lemma split_fields (s : string) : Forall is_field (Py.split s).
Proof.
  induction s as [|c s IH]; simpl; [constructor|].
  destruct (Py.isspace c) eqn:Hc; [exact IH|].
  destruct s as [|c' s']; [repeat constructor; auto; discriminate|].
  destruct (Py.isspace c') eqn:Hc'.
  - constructor; [|exact IH]. split; [discriminate|simpl; auto].
  - destruct (Py.split (String c' s')) as [|w ws] eqn:Hsp.
    + repeat constructor; auto; discriminate.
    + inversion IH as [|? ? [_ Hw] Hws]; subst.
      constructor; [|exact Hws]. split; [discriminate|simpl; auto].
Qed.

Lemma split_field (w : string) : is_field w -> Py.split w = [w].
Proof.
  intros [Hne Hns]. induction w as [|c w IH]; [done|].
  destruct Hns as [Hc Hns]. simpl. rewrite Hc.
  destruct w as [|c' w']; [done|].
  destruct Hns as [Hc' Hns']. rewrite Hc'.
  rewrite IH; [done|discriminate|split; assumption].
Qed.

Lemma split_is_field (s w : string) : w ∈ Py.split s -> is_field w.
Proof.
  intros Hw. pose proof (split_fields s) as HF.
  rewrite Forall_forall in HF. auto.
Qed.

(** ** The sequencer *)

Section SequencerProperties.
Variable trigram_hash : ascii -> ascii -> ascii -> Z.
Variable P : Z.
Variable sentinel : ascii.
Variable pad_token : string.
Variable vocab_size : Z.

Abbreviation token_to_id := (Sequencers.token_to_id trigram_hash P sentinel pad_token).
Abbreviation transform :=
  (Sequencers.transform trigram_hash P sentinel pad_token vocab_size).

Lemma token_to_id_range (token : string) (n : Z) :
  0 < n -> 0 <= token_to_id token n < n.
Proof.
  intros Hn. unfold Sequencers.token_to_id.
  destruct (decide _); [lia|]. apply Z.mod_pos_bound, Hn.
Qed.

Lemma pad_sequence_length (max_len : nat) (ids : list Z) :
  length (Sequencers.pad_sequence max_len ids) = max_len.
Proof.
  unfold Sequencers.pad_sequence.
  rewrite length_app, length_take, length_replicate. lia.
Qed.

Lemma pad_sequence_lookup_token (max_len : nat) (ids : list Z) (i : nat) (x : Z) :
  (i < max_len)%nat -> ids !! i = Some x ->
  Sequencers.pad_sequence max_len ids !! i = Some x.
Proof.
  intros Hi Hx. unfold Sequencers.pad_sequence.
  pose proof (lookup_lt_Some _ _ _ Hx) as Hlt.
  rewrite lookup_app_l by (rewrite length_take; lia).
  rewrite lookup_take_lt by lia. exact Hx.
Qed.

Lemma pad_sequence_lookup_pad (max_len : nat) (ids : list Z) (i : nat) :
  (length ids <= i < max_len)%nat ->
  Sequencers.pad_sequence max_len ids !! i = Some 0.
Proof.
  intros Hi. unfold Sequencers.pad_sequence.
  rewrite lookup_app_r by (rewrite length_take; lia).
  apply lookup_replicate_2. rewrite length_take. lia.
Qed.

Lemma transform_field (maxlen : nat) (token : string) :
  is_field token ->
  transform [token] (S maxlen)
  = [token_to_id token vocab_size :: replicate maxlen 0].
Proof.
  intros Hf. unfold Sequencers.transform, Sequencers.pad_sequence.
  simpl fmap. rewrite (split_field _ Hf). simpl.
  by rewrite take_nil, Nat.sub_0_r.
Qed.
(** C9. [Sequencer.transform] on one document returns one row of exactly
    [max_len] integers: position [i] holds the id of the [i]-th
    whitespace-split token of the document (tokens from position
    [max_len] on are dropped, nothing wraps around), and every position
    from the number of tokens on holds the pad id 0. *)
Theorem transform_one_document (doc : string) (max_len : nat) :
  exists row : list Z,
    transform [doc] max_len = [row]
    /\ length row = max_len
    /\ (forall (i : nat) (token : string),
          (i < max_len)%nat -> Py.split doc !! i = Some token ->
          row !! i = Some (token_to_id token vocab_size))
    /\ (forall i : nat,
          (length (Py.split doc) <= i < max_len)%nat -> row !! i = Some 0).
Proof.
  eexists. split; [reflexivity|]. split; [apply pad_sequence_length|]. split.
  - intros i token Hi Htok. apply pad_sequence_lookup_token; [done|].
    by rewrite list_lookup_fmap, Htok.
  - intros i Hi. apply pad_sequence_lookup_pad. by rewrite length_fmap.
Qed.

End SequencerProperties.

(** ** Arrays *)

Section EmbeddingsProperties.
Variable float32 : Type.
Variable np_float32 : string -> option float32.
Variable zero : float32.
Variable trigram_hash : ascii -> ascii -> ascii -> Z.
Variable P : Z.
Variable sentinel : ascii.
Variable pad_token : string.
Variable vocab_size : Z.

Abbreviation token_id :=
  (fun token => Sequencers.token_to_id trigram_hash P sentinel pad_token token vocab_size).
Abbreviation transform_0_0' :=
  (transform_0_0 trigram_hash P sentinel pad_token vocab_size).
Abbreviation parse_numbers' := (parse_numbers float32 np_float32).
Abbreviation loop_body' :=
  (loop_body float32 np_float32 trigram_hash P sentinel pad_token vocab_size).
Abbreviation stream' :=
  (stream float32 np_float32 trigram_hash P sentinel pad_token vocab_size).
Abbreviation compile_rows' :=
  (compile_rows float32 np_float32 zero trigram_hash P sentinel pad_token vocab_size).
Abbreviation compile' :=
  (compile float32 np_float32 zero trigram_hash P sentinel pad_token vocab_size).
Abbreviation shaped := (shaped float32).
Abbreviation setitem := (setitem float32).
Abbreviation getitem := (getitem float32).
Abbreviation stores := (stores float32 np_float32 trigram_hash P sentinel pad_token vocab_size).
Abbreviation overflows := (overflows float32 np_float32 trigram_hash P sentinel pad_token vocab_size).
Abbreviation skips := (skips float32 np_float32 trigram_hash P sentinel pad_token vocab_size).

Lemma normalize_index_nonneg (n : nat) (i : Z) :
  0 <= i < Z.of_nat n -> normalize_index n i = Ok (Z.to_nat i).
Proof.
  intros Hi. unfold normalize_index.
  by rewrite (proj2 (Z.leb_le _ _)), (proj2 (Z.ltb_lt _ _)) by lia.
Qed.

Lemma normalize_index_neg (n : nat) (i : Z) :
  - Z.of_nat n <= i < 0 -> normalize_index n i = Ok (Z.to_nat (i + Z.of_nat n)).
Proof.
  intros Hi. unfold normalize_index.
  rewrite (proj2 (Z.leb_gt _ _)) by lia. simpl.
  by rewrite (proj2 (Z.leb_le _ _)), (proj2 (Z.ltb_lt _ _)) by lia.
Qed.

Lemma normalize_index_out (n : nat) (i : Z) :
  i < - Z.of_nat n \/ Z.of_nat n <= i -> normalize_index n i = Raise IndexError.
Proof.
  intros Hi. unfold normalize_index.
  destruct (Z.leb_spec 0 i), (Z.ltb_spec i (Z.of_nat n)),
    (Z.leb_spec (- Z.of_nat n) i), (Z.ltb_spec i 0); simpl; try done; lia.
Qed.

Lemma normalize_index_cases (n : nat) (i : Z) :
  (0 <= i < Z.of_nat n /\ normalize_index n i = Ok (Z.to_nat i))
  \/ (- Z.of_nat n <= i < 0 /\ normalize_index n i = Ok (Z.to_nat (i + Z.of_nat n)))
  \/ ((i < - Z.of_nat n \/ Z.of_nat n <= i) /\ normalize_index n i = Raise IndexError).
Proof.
  destruct (Z_lt_le_dec i (- Z.of_nat n)); [right; right; split; [lia|apply normalize_index_out; lia]|].
  destruct (Z_lt_le_dec i 0); [right; left; split; [lia|apply normalize_index_neg; lia]|].
  destruct (Z_lt_le_dec i (Z.of_nat n)); [left; split; [lia|apply normalize_index_nonneg; lia]|].
  right; right; split; [lia|apply normalize_index_out; lia].
Qed.

Lemma normalize_index_lt (n : nat) (i : Z) (r : nat) :
  normalize_index n i = Ok r -> (r < n)%nat.
Proof.
  destruct (normalize_index_cases n i) as [[Hi ->]|[[Hi ->]|[Hi ->]]];
    intros [= <-] || discriminate; lia.
Qed.

Lemma setitem_shaped (w d : nat) (a a' : ndarray float32) (i : Z) (numbers : list float32) :
  shaped w d a -> setitem d a i numbers = Ok a' -> shaped w d a'.
Proof.
  intros [Hlen Hrows]. unfold setitem.
  destruct (normalize_index (length a) i) as [r|] eqn:Hr; [simpl|done].
  unfold broadcast. destruct (decide (length numbers = d)) as [Hd|Hd]; simpl.
  - intros [= <-]. split; [by rewrite length_insert|].
    by apply Forall_insert.
  - destruct numbers as [|x [|]]; simpl; try done.
    intros [= <-]. split; [by rewrite length_insert|].
    apply Forall_insert; [done|]. by rewrite length_replicate.
Qed.

Lemma except_pass_shaped (w d : nat) (a a' : ndarray float32) (body : result (ndarray float32)) :
  shaped w d a -> (forall b, body = Ok b -> shaped w d b) ->
  except_ValueError_pass a body = Ok a' -> shaped w d a'.
Proof.
  intros Ha Hb. destruct body as [b|[]]; simpl; try done.
  - intros [= <-]. by apply Hb.
  - by intros [= <-].
Qed.

Lemma loop_body_shaped (maxlen w : nat) (dimensions : Z) (a a' : ndarray float32) (line : string) :
  shaped w (Z.to_nat dimensions) a ->
  loop_body' maxlen dimensions a line = Ok a' -> shaped w (Z.to_nat dimensions) a'.
Proof.
  intros Ha. unfold loop_body.
  destruct (_ <? _); [|by intros [= <-]].
  destruct (Py.split line) as [|token values]; [done|].
  destruct (_ <? _)%nat; [|by intros [= <-]].
  destruct (transform_0_0' _ _) as [word|]; simpl; [|done].
  apply except_pass_shaped; [done|].
  intros b. destruct (parse_numbers' _) as [numbers|]; simpl; [|done].
  by apply setitem_shaped.
Qed.

Lemma stream_shaped (maxlen w : nat) (dimensions : Z) (lines : list string)
    (a a' : ndarray float32) (r : result unit) :
  shaped w (Z.to_nat dimensions) a ->
  stream' maxlen dimensions a lines = (a', r) -> shaped w (Z.to_nat dimensions) a'.
Proof.
  revert a. induction lines as [|line lines IH]; intros a Ha; simpl.
  - by intros [= <- _].
  - destruct (loop_body' _ _ _ _) as [a1|e] eqn:Hbody.
    + apply IH. eapply loop_body_shaped; eauto.
    + by intros [= <- _].
Qed.

(** ** The loop body *)

Lemma transform_0_0_field (maxlen : nat) (token : string) :
  (0 < maxlen)%nat -> is_field token ->
  transform_0_0' maxlen token = Ok (token_id token).
Proof.
  intros Hm Hf. destruct maxlen as [|m]; [lia|].
  unfold transform_0_0. by rewrite transform_field.
Qed.

Lemma parse_numbers_cases (values : list string) :
  (exists numbers, parse_numbers' values = Ok numbers
                   /\ length numbers = length values
                   /\ Forall (fun v => np_float32 v <> None) values)
  \/ (parse_numbers' values = Raise ValueError
      /\ exists v, v ∈ values /\ np_float32 v = None).
Proof.
  unfold parse_numbers. induction values as [|v values IH]; simpl.
  - left. by exists [].
  - destruct (np_float32 v) as [x|] eqn:Hv; simpl.
    + destruct IH as [(numbers & -> & Hlen & Hall)|(-> & u & Hu & Hnone)]; simpl.
      * left. exists (x :: numbers). split; [done|]. split; [simpl; lia|].
        constructor; [congruence|done].
      * right. split; [done|]. exists u. split; [by right|done].
    + right. split; [done|]. exists v. split; [by left|done].
Qed.

Lemma loop_body_guarded (maxlen : nat) (dimensions : Z) (a : ndarray float32)
    (line token : string) (values : list string) :
  (0 < maxlen)%nat ->
  Py.split line = token :: values ->
  dimensions < Z.of_nat (length (token :: values)) ->
  (2 < String.length token)%nat ->
  loop_body' maxlen dimensions a line
  = except_ValueError_pass a
      (numbers ← parse_numbers' values;
       setitem (Z.to_nat dimensions) a (token_id token) numbers).
Proof.
  intros Hm Hsplit Hdim Htok. unfold loop_body. rewrite Hsplit.
  rewrite (proj2 (Z.ltb_lt _ _) Hdim), (proj2 (Nat.ltb_lt _ _) Htok).
  rewrite transform_0_0_field; [done|done|].
  eapply split_is_field. rewrite Hsplit. by left.
Qed.

Lemma loop_body_unguarded (maxlen : nat) (dimensions : Z) (a : ndarray float32)
    (line : string) :
  0 <= dimensions ->
  Z.of_nat (length (Py.split line)) <= dimensions
  \/ (String.length (hd EmptyString (Py.split line)) <= 2)%nat ->
  loop_body' maxlen dimensions a line = Ok a.
Proof.
  intros Hd H. unfold loop_body.
  destruct (Z.ltb_spec dimensions (Z.of_nat (length (Py.split line)))) as [Hlt|]; [|done].
  destruct (Py.split line) as [|token values]; [simpl in Hlt; lia|].
  destruct H as [H|H]; [lia|]. simpl in H.
  by rewrite (proj2 (Nat.ltb_ge _ _)) by lia.
Qed.

Lemma setitem_in_range (d : nat) (a : ndarray float32) (i : Z) (numbers : list float32) :
  0 <= i < Z.of_nat (length a) ->
  setitem d a i numbers = row ← broadcast float32 d numbers; Ok (<[Z.to_nat i := row]> a).
Proof. intros Hi. unfold setitem. by rewrite normalize_index_nonneg. Qed.

Lemma setitem_out_of_range (d : nat) (a : ndarray float32) (i : Z) (numbers : list float32) :
  Z.of_nat (length a) <= i -> setitem d a i numbers = Raise IndexError.
Proof. intros Hi. unfold setitem. by rewrite normalize_index_out by lia. Qed.

Lemma broadcast_exact (d : nat) (numbers : list float32) :
  length numbers = d -> broadcast float32 d numbers = Ok numbers.
Proof. intros H. unfold broadcast. by rewrite decide_True. Qed.

Lemma broadcast_too_long (d : nat) (numbers : list float32) :
  (0 < d < length numbers)%nat -> broadcast float32 d numbers = Raise ValueError.
Proof.
  intros H. unfold broadcast. rewrite decide_False by lia.
  destruct numbers as [|x [|y l]]; simpl in *; try done; lia.
Qed.



(** ** The row id and the matrix *)



(** ** The streaming pass *)




(** ** Skipped lines *)

Abbreviation some_value_unparsable' := (some_value_unparsable float32 np_float32).

Lemma replicate_shaped (w d : nat) (x : float32) :
  shaped w d (replicate w (replicate d x)).
Proof.
  split; [by rewrite length_replicate|].
  apply Forall_replicate. by rewrite length_replicate.
Qed.

(** A line with a long enough token and values that all parse, more of
    them than the row is wide: the assignment fails to broadcast when the
    row exists, and fails on the index when it does not. *)
Lemma loop_body_oversized (maxlen : nat) (words dimensions : Z) (a : ndarray float32)
    (line token : string) (values : list string) (numbers : list float32) :
  0 < vocab_size -> (0 < maxlen)%nat -> 0 < dimensions ->
  Z.of_nat (length a) = words ->
  Py.split line = token :: values ->
  (2 < String.length token)%nat ->
  parse_numbers' values = Ok numbers ->
  dimensions < Z.of_nat (length numbers) ->
  loop_body' maxlen dimensions a line
  = if decide (token_id token < words) then Ok a else Raise IndexError.
Proof.
  intros Hv Hm Hd Hw Hs Htok Hn Hlen.
  assert (length numbers = length values) as Hnv.
  { destruct (parse_numbers_cases values) as [(n' & Hn' & Hl & _)|(Hn' & _)]; congruence. }
  rewrite (loop_body_guarded maxlen dimensions a line token values); try done;
    [|simpl; lia].
  rewrite Hn. simpl.
  pose proof (token_to_id_range trigram_hash P sentinel pad_token token _ Hv) as Hid.
  destruct (decide _) as [Hin|Hout].
  - rewrite setitem_in_range by lia. by rewrite broadcast_too_long by lia.
  - by rewrite setitem_out_of_range by lia.
Qed.


Lemma skips_if (maxlen : nat) (words dimensions : Z) (line : string) :
  0 < vocab_size -> (0 < maxlen)%nat -> 0 < words -> 0 < dimensions ->
  too_few_fields dimensions line \/ token_too_short line
  \/ some_value_unparsable' line
  \/ (too_many_values dimensions line
      /\ token_id (hd EmptyString (Py.split line)) < words) ->
  skips maxlen words dimensions line.
Proof.
  intros Hv Hm Hw Hd Hcases a [Hlen _].
  destruct (Z_lt_le_dec dimensions (Z.of_nat (length (Py.split line)))) as [Hfields|Hfields];
    [|apply loop_body_unguarded; lia].
  destruct (le_lt_dec (String.length (hd EmptyString (Py.split line))) 2) as [Htok|Htok];
    [apply loop_body_unguarded; [lia|by right]|].
  unfold too_few_fields, token_too_short, some_value_unparsable, too_many_values in Hcases.
  destruct (Py.split line) as [|token values] eqn:Hs; [simpl in Hfields; lia|].
  simpl in Htok, Hcases, Hfields.
  destruct (parse_numbers_cases values) as [(numbers & Hn & Hl & Hall)|(Hn & _)].
  - destruct Hcases as [H|[H|[(v & Hin & Hnone)|[Hmany Hid]]]]; [lia|lia|..].
    + rewrite Forall_forall in Hall. by destruct (Hall v Hin).
    + rewrite (loop_body_oversized maxlen words dimensions a line token values numbers);
        try done; try lia.
      by rewrite decide_True.
  - rewrite (loop_body_guarded maxlen dimensions a line token values) by done.
    by rewrite Hn.
Qed.

Lemma skips_only_if (maxlen : nat) (words dimensions : Z) (line : string)
    (x y : float32) :
  x <> y ->
  0 < vocab_size -> (0 < maxlen)%nat -> 0 < words -> 0 < dimensions ->
  skips maxlen words dimensions line ->
  too_few_fields dimensions line \/ token_too_short line
  \/ some_value_unparsable' line
  \/ (too_many_values dimensions line
      /\ token_id (hd EmptyString (Py.split line)) < words).
Proof.
  intros Hxy Hv Hm Hw Hd Hskip.
  unfold too_few_fields, token_too_short, some_value_unparsable, too_many_values.
  destruct (Z_lt_le_dec dimensions (Z.of_nat (length (Py.split line)))) as [Hfields|Hfields];
    [|left; lia].
  destruct (le_lt_dec (String.length (hd EmptyString (Py.split line))) 2) as [Htok|Htok];
    [right; left; lia|].
  destruct (Py.split line) as [|token values] eqn:Hs; [simpl in Hfields; lia|].
  simpl in Htok |- *.
  destruct (parse_numbers_cases values) as [(numbers & Hn & Hl & Hall)|(Hn & v & Hin & Hnone)];
    [|right; right; left; by exists v].
  right; right; right.
  pose proof (token_to_id_range trigram_hash P sentinel pad_token token _ Hv) as Hid.
  set (w := Z.to_nat words). set (d := Z.to_nat dimensions).
  pose proof (Hskip _ (replicate_shaped w d x)) as Hx.
  pose proof (Hskip _ (replicate_shaped w d y)) as Hy.
  assert (Hww : Z.of_nat w = words) by (unfold w; lia).
  assert (Hdd : Z.of_nat d = dimensions) by (unfold d; lia).
  clearbody w d.
  rewrite (loop_body_guarded maxlen dimensions _ line token values) in Hx by done.
  rewrite (loop_body_guarded maxlen dimensions _ line token values) in Hy by done.
  rewrite Hn in Hx, Hy. simpl in Hx, Hy.
  destruct (Z_lt_le_dec (token_id token) words) as [Hin|Hout]; cycle 1.
  { rewrite setitem_out_of_range in Hx; [done|]. rewrite length_replicate. lia. }
  split; [|done].
  destruct (Z_lt_le_dec (dimensions + 1) (Z.of_nat (S (length values)))) as [|Hexact];
    [done|exfalso].
  rewrite setitem_in_range in Hx, Hy by (rewrite length_replicate; lia).
  rewrite length_cons in Hfields.
  rewrite broadcast_exact in Hx, Hy by lia. simpl in Hx, Hy.
  injection Hx as Hx. injection Hy as Hy.
  assert (Hlt : (Z.to_nat (token_id token) < w)%nat) by lia.
  apply (f_equal (fun l => l !! Z.to_nat (token_id token))) in Hx, Hy.
  rewrite list_lookup_insert_eq in Hx, Hy by (rewrite length_replicate; lia).
  rewrite lookup_replicate_2 in Hx, Hy by lia.
  assert (Heq : replicate d x = replicate d y) by congruence.
  destruct d as [|d'] eqn:Ed; [lia|]. simpl in Heq. congruence.
Qed.

(** C7, as the code has it. With a positive hash space, [maxlen], [words]
    and [dimensions], the loop skips a line (raises nothing, changes no
    row, whatever the array of that shape) exactly when the line has
    fewer than [dimensions + 1] fields, or its token is shorter than 3
    characters, or one of its values fails to parse as a float, or it
    has more than [dimensions] values and the id of its token is a row
    of the array. Nothing of a line with an unparsable value is written.
    The line ["ab 1.0 2.0"] is skipped. *)
Theorem skipped_exactly_when (maxlen : nat) (words dimensions : Z) (line : string)
    (x y : float32) :
  x <> y ->
  0 < vocab_size -> (0 < maxlen)%nat -> 0 < words -> 0 < dimensions ->
  (skips maxlen words dimensions line
   <-> too_few_fields dimensions line \/ token_too_short line
       \/ some_value_unparsable' line
       \/ (too_many_values dimensions line
           /\ token_id (hd EmptyString (Py.split line)) < words))
  /\ skips maxlen words dimensions "ab 1.0 2.0".
Proof.
  intros Hxy Hv Hm Hw Hd. split; [split|].
  - by apply (skips_only_if maxlen words dimensions line x y).
  - by apply skips_if.
  - apply skips_if; try done. right; left.
    unfold token_too_short. vm_compute. lia.
Qed.

(** ** The header *)

Lemma int_raises (s : string) (e : exn) : Py.int s = Raise e -> e = ValueError.
Proof. unfold Py.int. intros H. repeat case_match; congruence. Qed.

Lemma mapM_int_raises (l : list string) (e : exn) :
  mapM Py.int l = Raise e -> e = ValueError.
Proof.
  induction l as [|s l IH]; simpl; [done|].
  destruct (Py.int s) as [n|e'] eqn:Hs; simpl.
  - destruct (mapM Py.int l) as [ns|e'']; simpl; [done|].
    intros [= <-]. by apply IH.
  - intros [= <-]. by apply int_raises in Hs.
Qed.

(** The header is read exactly when the line splits into two fields
    that [int] accepts; any other line is a [ValueError]. *)
Lemma parse_header_cases (first_line : string) :
  (exists sw sd w d,
      Py.split first_line = [sw; sd] /\ Py.int sw = Ok w /\ Py.int sd = Ok d
      /\ parse_header first_line = Ok (w, d))
  \/ ((~ exists sw sd w d,
          Py.split first_line = [sw; sd] /\ Py.int sw = Ok w /\ Py.int sd = Ok d)
      /\ parse_header first_line = Raise ValueError).
Proof.
  unfold parse_header.
  destruct (Py.split first_line) as [|sw [|sd [|s3 l]]]; simpl.
  - right. split; [|done]. by intros (? & ? & ? & ? & ? & _).
  - right. split; [by intros (? & ? & ? & ? & ? & _)|].
    destruct (Py.int sw) as [|e] eqn:H; simpl; [done|].
    by rewrite (int_raises _ _ H).
  - destruct (Py.int sw) as [w|e] eqn:Hw; simpl.
    + destruct (Py.int sd) as [d|e] eqn:Hd; simpl.
      * left. by exists sw, sd, w, d.
      * right. split; [|by rewrite (int_raises _ _ Hd)].
        intros (? & ? & ? & ? & [= <- <-] & _ & ?). congruence.
    + right. split; [|by rewrite (int_raises _ _ Hw)].
      intros (? & ? & ? & ? & [= <- <-] & ? & _). congruence.
  - right. split; [by intros (? & ? & ? & ? & ? & _)|].
    destruct (Py.int sw) as [w|e] eqn:Hw; simpl; [|by rewrite (int_raises _ _ Hw)].
    destruct (Py.int sd) as [d|e] eqn:Hd; simpl; [|by rewrite (int_raises _ _ Hd)].
    destruct (Py.int s3) as [n3|e] eqn:H3; simpl; [|by rewrite (int_raises _ _ H3)].
    destruct (mapM Py.int l) as [ns|e] eqn:Hl; simpl; [done|].
    by rewrite (mapM_int_raises _ _ Hl).
Qed.

(** C5. Let the vector file be readable. If its first line does not
    split into exactly two fields that [int] reads, the compilation ends
    with a [ValueError] and the file system is as it was: no temporary
    file, no row written. If it does, the two integers are [words] and
    [dimensions] and the compilation goes on to the preallocation and
    the rows with them. *)
Theorem header_two_integers (maxlen : nat) (vectors_path final_path : Path)
    (fs : gmap Path (file float32)) (f : string) :
  read_text float32 fs vectors_path = Ok f ->
  ((~ exists sw sd w d,
        Py.split (Py.readline f) = [sw; sd] /\ Py.int sw = Ok w /\ Py.int sd = Ok d) ->
   compile' maxlen vectors_path final_path fs = (fs, Raise ValueError))
  /\ (forall sw sd words dimensions,
        Py.split (Py.readline f) = [sw; sd] ->
        Py.int sw = Ok words -> Py.int sd = Ok dimensions ->
        parse_header (Py.readline f) = Ok (words, dimensions)
        /\ compile' maxlen vectors_path final_path fs
           = compile_rows' maxlen vectors_path final_path words dimensions fs).
Proof.
  intros Hf. unfold compile. rewrite Hf. simpl.
  destruct (parse_header_cases (Py.readline f))
    as [(sw & sd & w & d & Hs & Hw & Hd & ->)|[Hno ->]].
  - split; [intros Hno; destruct Hno; by exists sw, sd, w, d|].
    intros sw' sd' w' d' Hs' Hw' Hd'.
    rewrite Hs in Hs'. injection Hs' as <- <-.
    rewrite Hw in Hw'. injection Hw' as <-.
    rewrite Hd in Hd'. by injection Hd' as <-.
  - split; [done|]. intros sw sd w d Hs Hw Hd.
    destruct Hno. by exists sw, sd, w, d.
Qed.

(** ** The flat file and its rows *)

Abbreviation reshape := (reshape float32).
Abbreviation np_memmap_r := (np_memmap_r float32).
Abbreviation np_zeros := (np_zeros float32 zero).
Abbreviation flat := (flat float32).

Lemma length_concat_shaped (w d : nat) (a : ndarray float32) :
  shaped w d a -> length (concat a) = (w * d)%nat.
Proof.
  intros [<- Hrows]. induction Hrows as [|row a Hrow _ IH]; [done|].
  simpl. rewrite length_app. lia.
Qed.

Lemma reshape_concat (w d : nat) (a : ndarray float32) :
  shaped w d a -> reshape w d (concat a) = a.
Proof.
  intros [<- Hrows]. unfold reshape.
  induction Hrows as [|row a Hrow _ IH]; [done|].
  simpl. f_equal; [by apply take_app_length'|].
  rewrite <- fmap_S_seq, <- list_fmap_compose.
  etrans; [|exact IH].
  apply list_fmap_ext. intros _ r _. simpl.
  by rewrite drop_app_add' by done.
Qed.

Lemma np_memmap_r_flat (fs : gmap Path (file float32)) (p : Path) (words dimensions : Z)
    (a : ndarray float32) :
  0 < words -> 0 < dimensions ->
  shaped (Z.to_nat words) (Z.to_nat dimensions) a ->
  fs !! p = Some (flat a) ->
  np_memmap_r fs p words dimensions = Ok a.
Proof.
  intros Hw Hd Hsh Hp. unfold np_memmap_r. rewrite Hp. simpl.
  rewrite (length_concat_shaped _ _ _ Hsh).
  rewrite (proj2 (Z.ltb_lt _ _) Hw), (proj2 (Z.ltb_lt _ _) Hd). simpl.
  rewrite (proj2 (Z.leb_le _ _)) by lia.
  by rewrite reshape_concat.
Qed.

(** ** Compilation *)

Lemma compile_rows_Ok (maxlen : nat) (vectors_path final_path : Path)
    (words dimensions : Z) (fs fs' : gmap Path (file float32)) :
  compile_rows' maxlen vectors_path final_path words dimensions fs = (fs', Ok ()) ->
  0 < words /\ 0 < dimensions
  /\ exists a : ndarray float32,
      shaped (Z.to_nat words) (Z.to_nat dimensions) a
      /\ a !! 0%nat = Some (np_zeros (Z.to_nat dimensions))
      /\ fs' !! final_path = Some (flat a)
      /\ (final_path <> with_suffix final_path ".tmp" ->
          fs' !! with_suffix final_path ".tmp" = None).
Proof.
  unfold compile_rows, np_memmap_w.
  destruct (Z.ltb_spec 0 words) as [Hw|]; [|done].
  destruct (Z.ltb_spec 0 dimensions) as [Hd|]; [simpl|done].
  destruct (read_text _ _ _) as [f|]; [|done].
  destruct (stream' _ _ _ _) as [a1 [[]|]] eqn:Hstream; [|done].
  apply stream_shaped with (w := Z.to_nat words) in Hstream;
    [|apply replicate_shaped].
  destruct (setitem _ a1 0 _) as [a2|] eqn:Hset; [|done].
  pose proof (setitem_shaped _ _ _ _ _ _ Hstream Hset) as Hsh2.
  unfold rename. rewrite lookup_insert_eq. intros [= <-].
  split; [done|]. split; [done|]. exists a2. split; [done|].
  destruct Hstream as [Hlen _].
  rewrite setitem_in_range in Hset by lia.
  unfold np_zeros in Hset. rewrite broadcast_exact in Hset by apply length_replicate.
  simpl in Hset. injection Hset as <-.
  split; [apply list_lookup_insert_eq; lia|].
  split; [apply lookup_insert_eq|].
  intros Hne. rewrite lookup_insert_ne by done. apply lookup_delete_eq.
Qed.

Lemma compile_rows_Raise (maxlen : nat) (vectors_path final_path : Path)
    (words dimensions : Z) (fs fs' : gmap Path (file float32)) (e : exn) :
  compile_rows' maxlen vectors_path final_path words dimensions fs = (fs', Raise e) ->
  forall p, p <> with_suffix final_path ".tmp" -> fs' !! p = fs !! p.
Proof.
  unfold compile_rows, np_memmap_w. intros H p Hp.
  destruct ((0 <? words) && (0 <? dimensions));
    [|injection H as <- _; by rewrite lookup_insert_ne].
  destruct (read_text _ _ _) as [f|];
    [|injection H as <- _; by rewrite lookup_insert_ne].
  destruct (stream' _ _ _ _) as [a1 [[]|]];
    [|injection H as <- _; by rewrite !lookup_insert_ne].
  destruct (setitem _ a1 0 _) as [a2|];
    [|injection H as <- _; by rewrite !lookup_insert_ne].
  unfold rename in H. by rewrite lookup_insert_eq in H.
Qed.

(** C4. The store is compiled when nothing is at the final path
    (line 115), which is the path of the vector file with the suffix
    [.numpy] (line 96). If the compilation raises, at whatever point,
    nothing is at the final path afterwards and the file system differs
    from the one before at most at the temporary path. If it returns,
    the final path holds the flushed array, of the shape of the header,
    and the temporary path is free again. *)
Theorem failed_compile_leaves_no_store (maxlen : nat) (vectors_path : Path)
    (fs fs' : gmap Path (file float32)) (r : result unit) :
  let final_path := with_suffix vectors_path ".numpy" in
  let tmp := with_suffix final_path ".tmp" in
  fs !! final_path = None ->
  compile' maxlen vectors_path final_path fs = (fs', r) ->
  match r with
  | Raise _ =>
      fs' !! final_path = None /\ forall p, p <> tmp -> fs' !! p = fs !! p
  | Ok _ =>
      exists (words dimensions : Z) (a : ndarray float32),
        shaped (Z.to_nat words) (Z.to_nat dimensions) a
        /\ fs' !! final_path = Some (flat a)
        /\ fs' !! tmp = None
  end.
Proof.
  intros final_path tmp Hnone. unfold compile.
  assert (Hne : final_path <> tmp) by (unfold final_path, tmp, with_suffix; congruence).
  destruct (_ ≫= _) as [[words dimensions]|e] eqn:Hhdr.
  - destruct r as [[]|e]; intros Hc.
    + apply compile_rows_Ok in Hc as (_ & _ & a & Hsh & _ & Hfinal & Htmp).
      exists words, dimensions, a. auto.
    + pose proof (compile_rows_Raise _ _ _ _ _ _ _ _ Hc) as Hsame.
      split; [|done]. by rewrite Hsame.
  - intros [= <- <-]. done.
Qed.

(** C6. Whatever the vector file holds, when the compilation returns,
    the store read back from the final path with the shape of the header
    has [words] rows of [dimensions] entries, and its row 0 is
    [dimensions] zeros: line 132 overwrites it after the loop. *)
Theorem compiled_row_0_is_zero (maxlen : nat) (vectors_path final_path : Path)
    (fs fs' : gmap Path (file float32)) :
  compile' maxlen vectors_path final_path fs = (fs', Ok ()) ->
  exists (f : string) (words dimensions : Z) (store : ndarray float32),
    read_text float32 fs vectors_path = Ok f
    /\ parse_header (Py.readline f) = Ok (words, dimensions)
    /\ np_memmap_r fs' final_path words dimensions = Ok store
    /\ shaped (Z.to_nat words) (Z.to_nat dimensions) store
    /\ getitem store 0 = Ok (replicate (Z.to_nat dimensions) zero).
Proof.
  unfold compile.
  destruct (read_text float32 fs vectors_path) as [f|] eqn:Hf; simpl; [|done].
  destruct (parse_header (Py.readline f)) as [[words dimensions]|] eqn:Hh; [|done].
  intros (Hw & Hd & a & Hsh & Hrow & Hfinal & _)%compile_rows_Ok.
  exists f, words, dimensions, a. split; [done|]. split; [done|].
  split; [by apply np_memmap_r_flat|]. split; [done|].
  unfold getitem. destruct Hsh as [Hlen _].
  rewrite normalize_index_nonneg by lia.
  change (Z.to_nat 0) with 0%nat. unfold mbind, result_bind. by rewrite Hrow.
Qed.

(** ** Two runs *)

Lemma loop_body_maxlen (maxlen1 maxlen2 : nat) (dimensions : Z) (a : ndarray float32)
    (line : string) :
  (0 < maxlen1)%nat -> (0 < maxlen2)%nat ->
  loop_body' maxlen1 dimensions a line = loop_body' maxlen2 dimensions a line.
Proof.
  intros H1 H2. unfold loop_body.
  destruct (_ <? _); [|done].
  destruct (Py.split line) as [|token values] eqn:Hs; [done|].
  destruct (_ <? _)%nat; [|done].
  assert (is_field token) as Hf by (eapply split_is_field; rewrite Hs; by left).
  by rewrite !transform_0_0_field.
Qed.

Lemma stream_maxlen (maxlen1 maxlen2 : nat) (dimensions : Z) (a : ndarray float32)
    (lines : list string) :
  (0 < maxlen1)%nat -> (0 < maxlen2)%nat ->
  stream' maxlen1 dimensions a lines = stream' maxlen2 dimensions a lines.
Proof.
  intros H1 H2. revert a. induction lines as [|line lines IH]; intros a; [done|].
  simpl. rewrite (loop_body_maxlen maxlen1 maxlen2) by done.
  destruct (loop_body' _ _ _ _); [apply IH|done].
Qed.

Lemma read_text_after_memmap (fs : gmap Path (file float32)) (vectors_path tmp : Path)
    (x : file float32) :
  vectors_path <> tmp ->
  read_text float32 (<[tmp := x]> fs) vectors_path = read_text float32 fs vectors_path.
Proof. intros Hne. unfold read_text. by rewrite lookup_insert_ne. Qed.

Lemma compile_rows_two_runs (maxlen1 maxlen2 : nat) (vp1 fp1 vp2 fp2 : Path)
    (words dimensions : Z) (fs1 fs2 : gmap Path (file float32)) :
  (0 < maxlen1)%nat -> (0 < maxlen2)%nat ->
  vp1 <> with_suffix fp1 ".tmp" -> vp2 <> with_suffix fp2 ".tmp" ->
  read_text float32 fs1 vp1 = read_text float32 fs2 vp2 ->
  let run1 := compile_rows' maxlen1 vp1 fp1 words dimensions fs1 in
  let run2 := compile_rows' maxlen2 vp2 fp2 words dimensions fs2 in
  run1.2 = run2.2
  /\ (run1.2 = Ok () ->
      exists v, run1.1 !! fp1 = Some (Array v) /\ run2.1 !! fp2 = Some (Array v)).
Proof.
  intros H1 H2 Hne1 Hne2 Hread. unfold compile_rows, np_memmap_w.
  destruct ((0 <? words) && (0 <? dimensions)); [|done].
  rewrite !read_text_after_memmap by done. rewrite Hread.
  destruct (read_text float32 fs2 vp2) as [f|]; [|done].
  rewrite (stream_maxlen maxlen1 maxlen2) by done.
  destruct (stream' _ _ _ _) as [a1 [[]|]]; [|done].
  destruct (setitem _ a1 0 _) as [a2|]; [|done].
  unfold rename. rewrite !lookup_insert_eq. simpl. split; [done|].
  intros _. exists (concat a2). by rewrite !lookup_insert_eq.
Qed.

(** C8. Two runs of the compilation, on two file systems, for two vector
    files (suffix [.vec]) with the same content, each to its own final
    path, with any positive [maxlen]: both raise the same exception or
    both return, and when they return the two final files hold the same
    array, entry by entry. Nothing else of the file systems matters. *)
Theorem compile_two_runs (maxlen1 maxlen2 : nat) (vp1 vp2 : Path)
    (fs1 fs2 : gmap Path (file float32)) :
  let fp1 := with_suffix vp1 ".numpy" in
  let fp2 := with_suffix vp2 ".numpy" in
  let run1 := compile' maxlen1 vp1 fp1 fs1 in
  let run2 := compile' maxlen2 vp2 fp2 fs2 in
  (0 < maxlen1)%nat -> (0 < maxlen2)%nat ->
  vp1.2 = ".vec" -> vp2.2 = ".vec" ->
  fs1 !! vp1 = fs2 !! vp2 ->
  run1.2 = run2.2
  /\ (run1.2 = Ok () ->
      exists v, run1.1 !! fp1 = Some (Array v) /\ run2.1 !! fp2 = Some (Array v)).
Proof.
  intros fp1 fp2 run1 run2 H1 H2 Hs1 Hs2 Hsame.
  assert (Hread : read_text float32 fs1 vp1 = read_text float32 fs2 vp2).
  { unfold read_text. by rewrite Hsame. }
  assert (Hne1 : vp1 <> with_suffix fp1 ".tmp").
  { destruct vp1 as [n s]. simpl in Hs1. subst s. unfold fp1, with_suffix. simpl. congruence. }
  assert (Hne2 : vp2 <> with_suffix fp2 ".tmp").
  { destruct vp2 as [n s]. simpl in Hs2. subst s. unfold fp2, with_suffix. simpl. congruence. }
  unfold run1, run2, compile. rewrite Hread.
  destruct (_ ≫= _) as [[words dimensions]|e]; [|done].
  by apply compile_rows_two_runs.
Qed.

(** ** Reading rows *)

Lemma open_store_length (vectors_path final_path : Path)
    (fs : gmap Path (file float32)) (f : string) (words dimensions : Z)
    (store : ndarray float32) :
  read_text float32 fs vectors_path = Ok f ->
  parse_header (Py.readline f) = Ok (words, dimensions) ->
  open_store float32 vectors_path final_path fs = Ok store ->
  0 < words /\ Z.of_nat (length store) = words.
Proof.
  intros Hf Hh. unfold open_store. rewrite Hf. simpl. rewrite Hh. simpl.
  unfold np_memmap_r. destruct (fs !! final_path) as [[s|v]|]; try done.
  destruct (Z.ltb_spec 0 words); [simpl|done].
  destruct (_ && _); [|done]. intros [= <-]. split; [done|].
  unfold reshape. rewrite length_fmap, length_seq. lia.
Qed.

(** C2, as the code has it. For a store opened on a header with [words]
    rows, the row lookup [store[id]] raises [IndexError] exactly when
    [id < -words] or [words <= id]; it returns row [id] for
    [0 <= id < words], and for [-words <= id < 0] it returns the row
    [id + words], counting from the end. *)
Theorem row_lookup_range (vectors_path final_path : Path)
    (fs : gmap Path (file float32)) (f : string) (words dimensions : Z)
    (store : ndarray float32) (id : Z) :
  read_text float32 fs vectors_path = Ok f ->
  parse_header (Py.readline f) = Ok (words, dimensions) ->
  open_store float32 vectors_path final_path fs = Ok store ->
  (getitem store id = Raise IndexError <-> id < - words \/ words <= id)
  /\ (0 <= id < words ->
      exists row, getitem store id = Ok row /\ store !! Z.to_nat id = Some row)
  /\ (- words <= id < 0 ->
      exists row, getitem store id = Ok row
                  /\ store !! Z.to_nat (id + words) = Some row).
Proof.
  intros Hf Hh Hopen.
  destruct (open_store_length _ _ _ _ _ _ _ Hf Hh Hopen) as [Hw Hlen].
  unfold getitem.
  destruct (normalize_index_cases (length store) id) as [[Hi ->]|[[Hi ->]|[Hi ->]]];
    unfold mbind, result_bind.
  - destruct (lookup_lt_is_Some_2 store (Z.to_nat id)) as [row Hrow]; [lia|].
    rewrite Hrow. split; [split; [done|lia]|].
    split; [by exists row|lia].
  - destruct (lookup_lt_is_Some_2 store (Z.to_nat (id + Z.of_nat (length store))))
      as [row Hrow]; [lia|].
    rewrite Hrow. split; [split; [done|lia]|].
    split; [lia|]. intros _. exists row. by rewrite <- Hlen.
  - split; [split; [lia|done]|]. split; lia.
Qed.

End EmbeddingsProperties.

(** * The scenarios, worked *)


(** C2: the store of 10 rows compiled from [ten]; [store[-1]] is not an
    [IndexError], it is the last row, the one of the token [matrix]. *)
Lemma row_minus_one_is_last_row :
  (Scenario.init 10 "en" 1024 (Scenario.fs_of Scenario.ten)).2 = Ok Scenario.store_ten
  /\ length Scenario.store_ten = 10%nat
  /\ getitem Q Scenario.store_ten (-1) = Ok [1%Q; 2%Q]
  /\ getitem Q Scenario.store_ten (-1) <> Raise IndexError.
Proof. repeat split; try (vm_compute; reflexivity). discriminate. Qed.

Lemma row_lookup_range_witness :
  (getitem Q Scenario.store_ten (-1) = Raise IndexError <-> -1 < - 10 \/ 10 <= -1)
  /\ (0 <= -1 < 10 ->
      exists row, getitem Q Scenario.store_ten (-1) = Ok row
                  /\ Scenario.store_ten !! Z.to_nat (-1) = Some row)
  /\ (- 10 <= -1 < 0 ->
      exists row, getitem Q Scenario.store_ten (-1) = Ok row
                  /\ Scenario.store_ten !! Z.to_nat (-1 + 10) = Some row).
Proof.
  apply (row_lookup_range Q Scenario.vectors_path Scenario.final_path
           (Scenario.init 10 "en" 1024 (Scenario.fs_of Scenario.ten)).1
           Scenario.ten 10 2 Scenario.store_ten (-1)).
  - vm_compute. reflexivity.
  - vm_compute. reflexivity.
  - vm_compute. reflexivity.
Defined.



Lemma failed_compile_leaves_no_store_witness :
  (Scenario.compile Scenario.large 1024 Scenario.vectors_path Scenario.final_path
     (Scenario.fs_of Scenario.world)).1 !! Scenario.final_path = None
  /\ forall p, p <> Scenario.tmp_path ->
       (Scenario.compile Scenario.large 1024 Scenario.vectors_path Scenario.final_path
          (Scenario.fs_of Scenario.world)).1 !! p
       = Scenario.fs_of Scenario.world !! p.
Proof.
  apply (failed_compile_leaves_no_store Q Scenario.decimal 0%Q Scenario.hash3 31 "#" "<pad>"
           Scenario.large 1024 Scenario.vectors_path (Scenario.fs_of Scenario.world)
           (Scenario.compile Scenario.large 1024 Scenario.vectors_path Scenario.final_path
              (Scenario.fs_of Scenario.world)).1
           (Raise IndexError)).
  - vm_compute. reflexivity.
  - vm_compute. reflexivity.
Defined.

Lemma header_two_integers_witness :
  ((~ exists sw sd w d,
        Py.split (Py.readline Scenario.headless) = [sw; sd]
        /\ Py.int sw = Ok w /\ Py.int sd = Ok d) ->
   Scenario.compile Scenario.large 1024 Scenario.vectors_path Scenario.final_path
     (Scenario.fs_of Scenario.headless)
   = (Scenario.fs_of Scenario.headless, Raise ValueError))
  /\ (forall sw sd words dimensions,
        Py.split (Py.readline Scenario.headless) = [sw; sd] ->
        Py.int sw = Ok words -> Py.int sd = Ok dimensions ->
        parse_header (Py.readline Scenario.headless) = Ok (words, dimensions)
        /\ Scenario.compile Scenario.large 1024 Scenario.vectors_path Scenario.final_path
             (Scenario.fs_of Scenario.headless)
           = compile_rows Q Scenario.decimal 0%Q Scenario.hash3 31 "#" "<pad>"
               Scenario.large 1024 Scenario.vectors_path Scenario.final_path
               words dimensions (Scenario.fs_of Scenario.headless)).
Proof.
  apply (header_two_integers Q Scenario.decimal 0%Q Scenario.hash3 31 "#" "<pad>"
           Scenario.large 1024 Scenario.vectors_path Scenario.final_path
           (Scenario.fs_of Scenario.headless) Scenario.headless).
  vm_compute. reflexivity.
Defined.

Lemma compiled_row_0_is_zero_witness :
  exists (f : string) (words dimensions : Z) (store : ndarray Q),
    read_text Q (Scenario.fs_of Scenario.hello_hi) Scenario.vectors_path = Ok f
    /\ parse_header (Py.readline f) = Ok (words, dimensions)
    /\ np_memmap_r Q
         (Scenario.compile Scenario.small 1024 Scenario.vectors_path Scenario.final_path
            (Scenario.fs_of Scenario.hello_hi)).1
         Scenario.final_path words dimensions = Ok store
    /\ shaped Q (Z.to_nat words) (Z.to_nat dimensions) store
    /\ getitem Q store 0 = Ok (replicate (Z.to_nat dimensions) 0%Q).
Proof.
  apply (compiled_row_0_is_zero Q Scenario.decimal 0%Q Scenario.hash3 31 "#" "<pad>"
           Scenario.small 1024 Scenario.vectors_path Scenario.final_path
           (Scenario.fs_of Scenario.hello_hi)).
  vm_compute. reflexivity.
Defined.

(** C7: with rows of 2 entries, the line [hello 1.0 2.0 3.0] has 4
    fields, a token of 5 characters and values that all parse, and it is
    skipped all the same. *)
Lemma skipped_for_a_fourth_reason :
  Scenario.skips Scenario.small 1024 3 2 Scenario.three_values
  /\ ~ (too_few_fields 2 Scenario.three_values
        \/ token_too_short Scenario.three_values
        \/ some_value_unparsable Q Scenario.decimal Scenario.three_values).
Proof.
  split.
  - apply skips_if; [reflexivity|lia|reflexivity|reflexivity|].
    right; right; right. split; vm_compute; reflexivity.
  - intros [H|[H|(v & Hin & Hnone)]].
    + vm_compute in H. discriminate.
    + unfold token_too_short in H. vm_compute in H. lia.
    + change (tail (Py.split Scenario.three_values)) with ["1.0"; "2.0"; "3.0"] in Hin.
      repeat (apply elem_of_cons in Hin as [->|Hin]); try (vm_compute in Hnone; discriminate).
      by apply elem_of_nil in Hin.
Qed.

Lemma skipped_exactly_when_witness :
  (Scenario.skips Scenario.small 1024 3 2 Scenario.three_values
   <-> too_few_fields 2 Scenario.three_values
       \/ token_too_short Scenario.three_values
       \/ some_value_unparsable Q Scenario.decimal Scenario.three_values
       \/ (too_many_values 2 Scenario.three_values
           /\ Scenario.token_id Scenario.small
                (hd EmptyString (Py.split Scenario.three_values)) < 3))
  /\ Scenario.skips Scenario.small 1024 3 2 "ab 1.0 2.0".
Proof.
  apply (skipped_exactly_when Q Scenario.decimal Scenario.hash3 31 "#" "<pad>"
           Scenario.small 1024 3 2 Scenario.three_values 0%Q 1%Q).
  - discriminate.
  - reflexivity.
  - lia.
  - reflexivity.
  - reflexivity.
Defined.

Lemma compile_two_runs_witness :
  (Scenario.compile Scenario.small 1024 Scenario.vectors_path Scenario.final_path
     (Scenario.fs_of Scenario.hello_hi)).2
  = (Scenario.compile Scenario.small 16 Scenario.vectors_path_fr Scenario.final_path_fr
       Scenario.fs_fr).2
  /\ ((Scenario.compile Scenario.small 1024 Scenario.vectors_path Scenario.final_path
         (Scenario.fs_of Scenario.hello_hi)).2 = Ok () ->
      exists v,
        (Scenario.compile Scenario.small 1024 Scenario.vectors_path Scenario.final_path
           (Scenario.fs_of Scenario.hello_hi)).1 !! Scenario.final_path = Some (Array v)
        /\ (Scenario.compile Scenario.small 16 Scenario.vectors_path_fr
              Scenario.final_path_fr Scenario.fs_fr).1 !! Scenario.final_path_fr
           = Some (Array v)).
Proof.
  apply (compile_two_runs Q Scenario.decimal 0%Q Scenario.hash3 31 "#" "<pad>"
           Scenario.small 1024 16 Scenario.vectors_path Scenario.vectors_path_fr
           (Scenario.fs_of Scenario.hello_hi) Scenario.fs_fr).
  - lia.
  - lia.
  - reflexivity.
  - reflexivity.
  - vm_compute. reflexivity.
Defined.




(** * Beyond the claims: the rest of the constructor *)

Section ConstructorProperties.
Variable float32 : Type.
Variable np_float32 : string -> option float32.
Variable zero : float32.
Variable trigram_hash : ascii -> ascii -> ascii -> Z.
Variable P : Z.
Variable sentinel : ascii.
Variable pad_token : string.
Variable vocab_size : Z.

Abbreviation token_id :=
  (fun token => Sequencers.token_to_id trigram_hash P sentinel pad_token token vocab_size).
Abbreviation transform_0_0' :=
  (transform_0_0 trigram_hash P sentinel pad_token vocab_size).
Abbreviation parse_numbers' := (parse_numbers float32 np_float32).
Abbreviation loop_body' :=
  (loop_body float32 np_float32 trigram_hash P sentinel pad_token vocab_size).
Abbreviation stream' :=
  (stream float32 np_float32 trigram_hash P sentinel pad_token vocab_size).
Abbreviation compile_rows' :=
  (compile_rows float32 np_float32 zero trigram_hash P sentinel pad_token vocab_size).
Abbreviation compile' :=
  (compile float32 np_float32 zero trigram_hash P sentinel pad_token vocab_size).
Abbreviation init' :=
  (init float32 np_float32 zero trigram_hash P sentinel pad_token vocab_size).
Abbreviation construct' :=
  (construct float32 np_float32 zero trigram_hash P sentinel pad_token vocab_size).
Abbreviation shaped := (shaped float32).
Abbreviation setitem := (setitem float32).
Abbreviation getitem := (getitem float32).
Abbreviation stores := (stores float32 np_float32 trigram_hash P sentinel pad_token vocab_size).
Abbreviation writes := (writes float32 np_float32 trigram_hash P sentinel pad_token vocab_size).
Abbreviation np_memmap_r := (np_memmap_r float32).
Abbreviation np_zeros := (np_zeros float32 zero).
Abbreviation flat := (flat float32).
Abbreviation read_text := (read_text float32).
Abbreviation open_store := (open_store float32).
Abbreviation download := (download float32).

(** ** What a compilation that returns has done *)

Lemma compile_rows_Ok_inv (maxlen : nat) (vectors_path final_path : Path)
    (words dimensions : Z) (fs fs' : gmap Path (file float32)) :
  compile_rows' maxlen vectors_path final_path words dimensions fs = (fs', Ok ()) ->
  let tmp := with_suffix final_path ".tmp" in
  exists (f : string) (a1 : ndarray float32),
    0 < words /\ 0 < dimensions /\ vectors_path <> tmp
    /\ read_text fs vectors_path = Ok f
    /\ stream' maxlen dimensions
         (replicate (Z.to_nat words) (np_zeros (Z.to_nat dimensions))) (Py.lines f)
       = (a1, Ok ())
    /\ shaped (Z.to_nat words) (Z.to_nat dimensions) a1
    /\ fs' !! final_path
       = Some (flat (<[0%nat := np_zeros (Z.to_nat dimensions)]> a1))
    /\ forall p, p <> tmp -> p <> final_path -> fs' !! p = fs !! p.
Proof.
  intros H tmp. unfold compile_rows, np_memmap_w in H. fold tmp in H.
  destruct (Z.ltb_spec 0 words) as [Hw|]; [|done].
  destruct (Z.ltb_spec 0 dimensions) as [Hd|]; [simpl in H|done].
  destruct (decide (vectors_path = tmp)) as [->|Hne].
  { unfold read_text in H. by rewrite lookup_insert_eq in H. }
  rewrite read_text_after_memmap in H by done.
  destruct (read_text fs vectors_path) as [f|] eqn:Hf; [|done].
  destruct (stream' _ _ _ _) as [a1 [[]|]] eqn:Hstream; [|done].
  pose proof (stream_shaped _ _ _ _ _ _ _ _ _ _ _ _ _ _
                (replicate_shaped float32 _ _ zero) Hstream) as Hsh.
  destruct Hsh as [Hlen Hrows].
  rewrite setitem_in_range in H by lia.
  unfold np_zeros in H. rewrite broadcast_exact in H by apply length_replicate.
  simpl in H. unfold rename in H. rewrite lookup_insert_eq in H.
  injection H as <-.
  exists f, a1. repeat split; try done.
  - apply lookup_insert_eq.
  - intros p Hp Hpf. by rewrite lookup_insert_ne, lookup_delete_ne, !lookup_insert_ne.
Qed.

Lemma compile_Ok_inv (maxlen : nat) (vectors_path final_path : Path)
    (fs fs' : gmap Path (file float32)) :
  compile' maxlen vectors_path final_path fs = (fs', Ok ()) ->
  exists (f : string) (words dimensions : Z),
    read_text fs vectors_path = Ok f
    /\ parse_header (Py.readline f) = Ok (words, dimensions)
    /\ compile_rows' maxlen vectors_path final_path words dimensions fs = (fs', Ok ()).
Proof.
  unfold compile.
  destruct (read_text fs vectors_path) as [f|]; simpl; [|done].
  destruct (parse_header (Py.readline f)) as [[words dimensions]|] eqn:Hh; [|done].
  intros H. by exists f, words, dimensions.
Qed.

Lemma compile_frame (maxlen : nat) (vectors_path final_path : Path)
    (fs fs' : gmap Path (file float32)) (r : result unit) (p : Path) :
  compile' maxlen vectors_path final_path fs = (fs', r) ->
  p <> with_suffix final_path ".tmp" -> p <> final_path ->
  fs' !! p = fs !! p.
Proof.
  intros H Hp Hpf. destruct r as [[]|e].
  - apply compile_Ok_inv in H as (f & words & dimensions & _ & _ & H).
    apply compile_rows_Ok_inv in H as (_ & _ & _ & _ & _ & _ & _ & _ & _ & Hframe).
    by apply Hframe.
  - unfold compile in H.
    destruct (_ ≫= _) as [[words dimensions]|e']; [|by injection H as <- _].
    by apply (compile_rows_Raise _ _ _ _ _ _ _ _ _ _ _ _ _ _ _ _ H).
Qed.

(** ** The constructor and the file system *)

(** X1. The constructor, from the compilation on, changes the file system
    at most at the final path and at the temporary path of its
    language: every other path keeps what it holds, and the vector file
    is never written. *)
Theorem init_frame (language : string) (maxlen : nat)
    (fs : gmap Path (file float32)) :
  let vectors_path := download_path "fasttext" language in
  let final_path := with_suffix vectors_path ".numpy" in
  let fs' := (init' language maxlen fs).1 in
  (forall p, p <> final_path -> p <> with_suffix final_path ".tmp" ->
             fs' !! p = fs !! p)
  /\ fs' !! vectors_path = fs !! vectors_path.
Proof.
  intros vectors_path final_path fs'.
  assert (Hframe : forall p, p <> final_path -> p <> with_suffix final_path ".tmp" ->
                             fs' !! p = fs !! p).
  { intros p Hpf Hp. unfold fs', init. fold vectors_path final_path.
    destruct (fs !! final_path); [done|].
    destruct (compile' maxlen vectors_path final_path fs) as [fs1 r] eqn:Hc.
    simpl. by apply (compile_frame _ _ _ _ _ _ _ Hc). }
  split; [done|].
  apply Hframe; unfold final_path, vectors_path, with_suffix, download_path;
    simpl; congruence.
Qed.

(** X2. When the compilation returns, the final file holds exactly
    [words * dimensions] floats, for the [words] and [dimensions] of the
    header: 4 bytes each, nothing before and nothing after. *)
Theorem compiled_file_size (maxlen : nat) (vectors_path final_path : Path)
    (fs fs' : gmap Path (file float32)) :
  compile' maxlen vectors_path final_path fs = (fs', Ok ()) ->
  exists (f : string) (words dimensions : Z) (v : list float32),
    read_text fs vectors_path = Ok f
    /\ parse_header (Py.readline f) = Ok (words, dimensions)
    /\ fs' !! final_path = Some (Array v)
    /\ Z.of_nat (length v) = words * dimensions.
Proof.
  intros (f & words & dimensions & Hf & Hh & H)%compile_Ok_inv.
  apply compile_rows_Ok in H as (Hw & Hd & a & Hsh & _ & Hfinal & _).
  exists f, words, dimensions, (concat a). repeat split; try done.
  rewrite (length_concat_shaped _ _ _ _ Hsh). lia.
Qed.

Lemma open_store_reads (vectors_path final_path : Path)
    (fs : gmap Path (file float32)) (store : ndarray float32) :
  open_store vectors_path final_path fs = Ok store ->
  exists f, fs !! vectors_path = Some (Text f).
Proof.
  unfold open_store, read_text.
  destruct (fs !! vectors_path) as [[f|v]|]; try done. by exists f.
Qed.

(** X3. Once the constructor has returned a store, constructing again on the
    file system it left, whatever the server would answer, downloads
    nothing, compiles nothing, leaves the file system as it is and
    returns the same store. *)
Theorem construct_idempotent (language : string) (maxlen : nat) (r r' : response)
    (fs fs' : gmap Path (file float32)) (store : ndarray float32) :
  construct' language maxlen r fs = (fs', Ok store) ->
  construct' language maxlen r' fs' = (fs', Ok store).
Proof.
  unfold construct.
  destruct (download _ r fs) as [fs1 [[]|e]] eqn:Hd; [|done].
  unfold init.
  set (vectors_path := download_path "fasttext" language).
  set (final_path := with_suffix vectors_path ".numpy").
  intros Hinit.
  assert (Hopen : open_store vectors_path final_path fs' = Ok store
                  /\ is_Some (fs' !! final_path)).
  { destruct (fs1 !! final_path) as [x|] eqn:Hfinal.
    - injection Hinit as <- Hopen. split; [done|]. by rewrite Hfinal.
    - destruct (compile' maxlen vectors_path final_path fs1) as [fs2 [[]|e]] eqn:Hc;
        [|done].
      injection Hinit as <- Hopen. split; [done|].
      apply compile_Ok_inv in Hc as (f & words & dimensions & _ & _ & Hc).
      apply compile_rows_Ok in Hc as (_ & _ & a & _ & _ & Hf & _).
      by rewrite Hf. }
  destruct Hopen as [Hopen [x Hx]].
  destruct (open_store_reads _ _ _ _ Hopen) as [f Hf].
  unfold download. fold vectors_path. rewrite Hf, Hx. simpl. by rewrite Hopen.
Qed.

(** ** The opened store *)

Abbreviation reshape := (reshape float32).

Lemma open_store_inv (vectors_path final_path : Path)
    (fs : gmap Path (file float32)) (f : string) (words dimensions : Z)
    (store : ndarray float32) :
  read_text fs vectors_path = Ok f ->
  parse_header (Py.readline f) = Ok (words, dimensions) ->
  open_store vectors_path final_path fs = Ok store ->
  exists v : list float32,
    fs !! final_path = Some (Array v)
    /\ 0 < words /\ 0 < dimensions
    /\ words * dimensions <= Z.of_nat (length v)
    /\ store = reshape (Z.to_nat words) (Z.to_nat dimensions) v.
Proof.
  intros Hf Hh. unfold open_store. rewrite Hf. simpl. rewrite Hh. simpl.
  unfold np_memmap_r. destruct (fs !! final_path) as [[s|v]|]; try done.
  destruct (Z.ltb_spec 0 words); [|done].
  destruct (Z.ltb_spec 0 dimensions); [simpl|done].
  destruct (Z.leb_spec (words * dimensions) (Z.of_nat (length v))); [|done].
  intros [= <-]. by exists v.
Qed.

Lemma reshape_lookup (w d : nat) (v : list float32) (r : nat) :
  (r < w)%nat -> reshape w d v !! r = Some (take d (drop (r * d) v)).
Proof.
  intros Hr. unfold reshape. rewrite list_lookup_fmap.
  by rewrite lookup_seq_lt.
Qed.

(** X4. The store that the constructor opens has the shape of the header,
    [words] rows of [dimensions] entries each, also when the file at
    the final path is longer than that. *)
Theorem opened_store_shape (vectors_path final_path : Path)
    (fs : gmap Path (file float32)) (f : string) (words dimensions : Z)
    (store : ndarray float32) :
  read_text fs vectors_path = Ok f ->
  parse_header (Py.readline f) = Ok (words, dimensions) ->
  open_store vectors_path final_path fs = Ok store ->
  shaped (Z.to_nat words) (Z.to_nat dimensions) store.
Proof.
  intros Hf Hh Hopen.
  destruct (open_store_inv _ _ _ _ _ _ _ Hf Hh Hopen) as (v & _ & Hw & Hd & Hlen & ->).
  split; [unfold reshape; by rewrite length_fmap, length_seq|].
  apply Forall_forall. intros row Hrow.
  apply list_elem_of_lookup in Hrow as [r Hr].
  assert (r < Z.to_nat words)%nat as Hlt.
  { apply lookup_lt_Some in Hr. unfold reshape in Hr.
    by rewrite length_fmap, length_seq in Hr. }
  rewrite reshape_lookup in Hr by done. injection Hr as <-.
  rewrite length_take, length_drop. nia.
Qed.

(** X5. The opened store is the file read row after row: entry [c] of row
    [r] is the float at position [r * dimensions + c] of the file. *)
Theorem opened_store_row_major (vectors_path final_path : Path)
    (fs : gmap Path (file float32)) (f : string) (words dimensions : Z)
    (store : ndarray float32) (v : list float32) (r c : nat) :
  read_text fs vectors_path = Ok f ->
  parse_header (Py.readline f) = Ok (words, dimensions) ->
  open_store vectors_path final_path fs = Ok store ->
  fs !! final_path = Some (Array v) ->
  Z.of_nat r < words -> Z.of_nat c < dimensions ->
  exists row x,
    store !! r = Some row /\ row !! c = Some x
    /\ v !! (r * Z.to_nat dimensions + c)%nat = Some x.
Proof.
  intros Hf Hh Hopen Hv Hr Hc.
  destruct (open_store_inv _ _ _ _ _ _ _ Hf Hh Hopen) as (v' & Hv' & Hw & Hd & Hlen & ->).
  rewrite Hv in Hv'. injection Hv' as <-.
  destruct (lookup_lt_is_Some_2 v (r * Z.to_nat dimensions + c)) as [x Hx]; [nia|].
  exists (take (Z.to_nat dimensions) (drop (r * Z.to_nat dimensions) v)), x.
  split; [apply reshape_lookup; lia|]. split; [|done].
  rewrite lookup_take_lt by lia. by rewrite lookup_drop.
Qed.

Lemma reshape_concat_app (w d : nat) (a : ndarray float32) (rest : list float32) :
  shaped w d a -> reshape w d (concat a ++ rest) = a.
Proof.
  intros [<- Hrows]. unfold reshape.
  induction Hrows as [|row a Hrow _ IH]; [done|].
  simpl. rewrite <- (assoc_L (++)).
  f_equal; [by apply take_app_length'|].
  rewrite <- fmap_S_seq, <- list_fmap_compose.
  etrans; [|exact IH].
  apply list_fmap_ext. intros _ r _. simpl.
  by rewrite drop_app_add' by done.
Qed.

(** X6. Flushing and reading back: a file that starts with the rows of an
    array of shape [(words, dimensions)], one after the other, and goes
    on with anything, is read with that shape as the array itself. *)
Theorem flush_then_read (fs : gmap Path (file float32)) (p : Path)
    (words dimensions : Z) (a : ndarray float32) (rest : list float32) :
  0 < words -> 0 < dimensions ->
  shaped (Z.to_nat words) (Z.to_nat dimensions) a ->
  fs !! p = Some (Array (concat a ++ rest)) ->
  np_memmap_r fs p words dimensions = Ok a.
Proof.
  intros Hw Hd Hsh Hp. unfold np_memmap_r. rewrite Hp.
  rewrite length_app, (length_concat_shaped _ _ _ _ Hsh).
  rewrite (proj2 (Z.ltb_lt _ _) Hw), (proj2 (Z.ltb_lt _ _) Hd). simpl.
  rewrite (proj2 (Z.leb_le _ _)) by lia.
  by rewrite reshape_concat_app.
Qed.

(** ** What the loop writes *)

Lemma writes_nonneg (dimensions : Z) (line : string) (id : Z) (numbers : list float32) :
  0 < vocab_size -> writes dimensions line id numbers -> 0 <= id.
Proof.
  intros Hv [(token & values & _ & _ & _ & _ & ->) _].
  by destruct (token_to_id_range trigram_hash P sentinel pad_token token _ Hv).
Qed.

(** A line that writes: the row is replaced when it exists, and the
    index fails when it does not. *)
Lemma loop_body_writes (maxlen : nat) (dimensions : Z) (a : ndarray float32)
    (line : string) (id : Z) (numbers : list float32) :
  0 < vocab_size -> (0 < maxlen)%nat ->
  writes dimensions line id numbers ->
  loop_body' maxlen dimensions a line
  = if decide (id < Z.of_nat (length a))
    then Ok (<[Z.to_nat id := numbers]> a) else Raise IndexError.
Proof.
  intros Hv Hm Hwr. pose proof (writes_nonneg _ _ _ _ Hv Hwr) as Hid.
  destruct Hwr as [(token & values & Hs & Hlen & Htok & Hn & ->) Hd].
  rewrite (loop_body_guarded _ _ _ _ _ _ _ maxlen dimensions a line token values)
    by done.
  rewrite Hn. simpl. destruct (decide _) as [Hin|Hout].
  - rewrite setitem_in_range by lia. by rewrite broadcast_exact.
  - by rewrite setitem_out_of_range by lia.
Qed.

(** A line leaves alone every row that it does not write. *)
Lemma loop_body_frame (maxlen : nat) (dimensions : Z) (a a' : ndarray float32)
    (line : string) (r : nat) :
  0 < vocab_size -> (0 < maxlen)%nat -> 0 < dimensions ->
  loop_body' maxlen dimensions a line = Ok a' ->
  (forall numbers, ~ writes dimensions line (Z.of_nat r) numbers) ->
  a' !! r = a !! r.
Proof.
  intros Hv Hm Hd Hbody Hno.
  destruct (Z_lt_le_dec dimensions (Z.of_nat (length (Py.split line)))) as [Hlen|Hlen];
    [|rewrite loop_body_unguarded in Hbody by lia; by injection Hbody as <-].
  destruct (Py.split line) as [|token values] eqn:Hs; [simpl in Hlen; lia|].
  destruct (le_lt_dec (String.length token) 2) as [Htok|Htok].
  { rewrite loop_body_unguarded in Hbody; [by injection Hbody as <-|lia|].
    right. by rewrite Hs. }
  rewrite (loop_body_guarded _ _ _ _ _ _ _ maxlen dimensions a line token values)
    in Hbody by done.
  destruct (parse_numbers_cases _ np_float32 values) as [(numbers & Hn & Hl & _)|(Hn & _)];
    rewrite Hn in Hbody; simpl in Hbody; [|by injection Hbody as <-].
  pose proof (token_to_id_range trigram_hash P sentinel pad_token token _ Hv) as Hid.
  destruct (Z_lt_le_dec (token_id token) (Z.of_nat (length a))) as [Hin|Hout];
    [|by rewrite setitem_out_of_range in Hbody by lia].
  rewrite setitem_in_range in Hbody by lia.
  rewrite length_cons in Hlen.
  destruct (decide (length numbers = Z.to_nat dimensions)) as [Hexact|Hmore].
  - rewrite broadcast_exact in Hbody by done. simpl in Hbody. injection Hbody as <-.
    apply list_lookup_insert_ne. intros <-.
    apply (Hno numbers). split; [|done].
    exists token, values. rewrite Hs, length_cons. repeat split; try done. lia.
  - rewrite broadcast_too_long in Hbody by lia. by injection Hbody as <-.
Qed.

Lemma stream_app (maxlen : nat) (dimensions : Z) (a : ndarray float32)
    (lines1 lines2 : list string) :
  stream' maxlen dimensions a (lines1 ++ lines2)
  = match stream' maxlen dimensions a lines1 with
    | (a1, Ok _) => stream' maxlen dimensions a1 lines2
    | (a1, Raise e) => (a1, Raise e)
    end.
Proof.
  revert a. induction lines1 as [|line lines1 IH]; intros a; [done|].
  simpl. destruct (loop_body' _ _ _ _); [apply IH|done].
Qed.

Lemma stream_frame (maxlen : nat) (dimensions : Z) (a a' : ndarray float32)
    (lines : list string) (r : nat) :
  0 < vocab_size -> (0 < maxlen)%nat -> 0 < dimensions ->
  stream' maxlen dimensions a lines = (a', Ok ()) ->
  (forall line, line ∈ lines ->
     forall numbers, ~ writes dimensions line (Z.of_nat r) numbers) ->
  a' !! r = a !! r.
Proof.
  intros Hv Hm Hd. revert a. induction lines as [|line lines IH]; intros a; simpl.
  - by intros [= <-] _.
  - destruct (loop_body' _ _ _ _) as [a1|] eqn:Hbody; [|done].
    intros Hs Hno. rewrite (IH a1 Hs); [|intros l Hl; apply Hno; by right].
    apply (loop_body_frame maxlen dimensions a a1 line r); try done.
    apply Hno. by left.
Qed.

(** Last write wins, in the loop: when the loop runs to the end, a row
    holds the numbers of the last line that wrote it. *)
Lemma stream_last_write (maxlen : nat) (dimensions : Z) (a a' : ndarray float32)
    (lines1 lines2 : list string) (line : string) (id : Z) (numbers : list float32) :
  0 < vocab_size -> (0 < maxlen)%nat -> 0 < dimensions ->
  stream' maxlen dimensions a (lines1 ++ line :: lines2) = (a', Ok ()) ->
  writes dimensions line id numbers ->
  (forall l, l ∈ lines2 -> forall n, ~ writes dimensions l id n) ->
  a' !! Z.to_nat id = Some numbers.
Proof.
  intros Hv Hm Hd Hs Hwr Hno.
  pose proof (writes_nonneg _ _ _ _ Hv Hwr) as Hid.
  rewrite stream_app in Hs.
  destruct (stream' maxlen dimensions a lines1) as [a1 [[]|]]; [|done].
  simpl in Hs. rewrite (loop_body_writes maxlen dimensions a1 line id numbers) in Hs
    by done.
  destruct (decide _) as [Hin|]; [|done].
  rewrite (stream_frame maxlen dimensions _ a' lines2 (Z.to_nat id) Hv Hm Hd Hs).
  - apply list_lookup_insert_eq. lia.
  - intros l Hl n. rewrite Z2Nat.id by done. by apply Hno.
Qed.

Lemma setitem_length (d : nat) (a a' : ndarray float32) (i : Z) (numbers : list float32) :
  setitem d a i numbers = Ok a' -> length a' = length a.
Proof.
  unfold setitem. destruct (normalize_index _ _) as [r|]; simpl; [|done].
  destruct (broadcast _ _ _) as [row|]; simpl; [|done].
  intros [= <-]. apply length_insert.
Qed.

Lemma loop_body_length (maxlen : nat) (dimensions : Z) (a a' : ndarray float32)
    (line : string) :
  loop_body' maxlen dimensions a line = Ok a' -> length a' = length a.
Proof.
  unfold loop_body. intros H.
  destruct (dimensions <? _); [|by injection H as <-].
  destruct (Py.split line) as [|token values]; [done|].
  destruct (_ <? _)%nat; [|by injection H as <-].
  destruct (transform_0_0' maxlen token) as [word|]; simpl in H; [|done].
  destruct (parse_numbers' values) as [numbers|[]]; simpl in H;
    try done; try by injection H as <-.
  destruct (setitem _ a word numbers) as [a2|[]] eqn:Hset; simpl in H;
    try done; injection H as <-; [by apply setitem_length in Hset|done].
Qed.

(** X7. One pass of the loop body that raises nothing changes at most one
    row, the one at the id of the first field of the line, and keeps the
    number of rows. *)
Theorem line_touches_one_row (maxlen : nat) (dimensions : Z)
    (a a' : ndarray float32) (line : string) :
  0 < vocab_size -> (0 < maxlen)%nat -> 0 < dimensions ->
  loop_body' maxlen dimensions a line = Ok a' ->
  length a' = length a
  /\ forall r : nat,
      (forall token values,
         Py.split line = token :: values -> Z.of_nat r <> token_id token) ->
      a' !! r = a !! r.
Proof.
  intros Hv Hm Hd Hbody. split.
  - by apply (loop_body_length maxlen dimensions a a' line).
  - intros r Hr. apply (loop_body_frame maxlen dimensions a a' line r); try done.
    intros numbers [(token & values & Hs & _ & _ & _ & Hid) _].
    by apply (Hr token values).
Qed.

(** ** What the compiled store holds *)

Lemma compiled_store_inv (maxlen : nat) (vectors_path final_path : Path)
    (fs fs' : gmap Path (file float32)) (f : string) (words dimensions : Z) :
  compile' maxlen vectors_path final_path fs = (fs', Ok ()) ->
  read_text fs vectors_path = Ok f ->
  parse_header (Py.readline f) = Ok (words, dimensions) ->
  exists a1 : ndarray float32,
    0 < words /\ 0 < dimensions
    /\ stream' maxlen dimensions
         (replicate (Z.to_nat words) (np_zeros (Z.to_nat dimensions))) (Py.lines f)
       = (a1, Ok ())
    /\ shaped (Z.to_nat words) (Z.to_nat dimensions) a1
    /\ np_memmap_r fs' final_path words dimensions
       = Ok (<[0%nat := np_zeros (Z.to_nat dimensions)]> a1).
Proof.
  intros (f' & w & d & Hf' & Hh' & Hc)%compile_Ok_inv Hf Hh.
  rewrite Hf in Hf'. injection Hf' as <-.
  rewrite Hh in Hh'. injection Hh' as <- <-.
  apply compile_rows_Ok_inv in Hc
    as (f' & a1 & Hw & Hd & _ & Hf' & Hs & Hsh & Hfinal & _).
  rewrite Hf in Hf'. injection Hf' as <-.
  exists a1. repeat split; try done; try apply Hsh.
  apply np_memmap_r_flat; try done.
  destruct Hsh as [Hlen Hrows]. split; [by rewrite length_insert|].
  apply Forall_insert; [done|]. apply length_replicate.
Qed.

(** X8. Last write wins. When the compilation returns, and a line of the
    file has a first field of 3 characters or more with an id other
    than 0, followed by exactly [dimensions] values that all parse, and
    no later line writes the row of that id, then that row of the
    compiled store holds the values of the line. *)
Theorem compiled_row_last_write (maxlen : nat) (vectors_path final_path : Path)
    (fs fs' : gmap Path (file float32)) (f : string) (words dimensions : Z)
    (lines1 lines2 : list string) (line : string) (id : Z)
    (numbers : list float32) :
  0 < vocab_size -> (0 < maxlen)%nat ->
  compile' maxlen vectors_path final_path fs = (fs', Ok ()) ->
  read_text fs vectors_path = Ok f ->
  parse_header (Py.readline f) = Ok (words, dimensions) ->
  Py.lines f = (lines1 ++ line :: lines2)%list ->
  writes dimensions line id numbers ->
  id <> 0 ->
  (forall l, l ∈ lines2 -> forall n, ~ writes dimensions l id n) ->
  exists store : ndarray float32,
    np_memmap_r fs' final_path words dimensions = Ok store
    /\ getitem store id = Ok numbers.
Proof.
  intros Hv Hm Hc Hf Hh Hlines Hwr Hid Hno.
  destruct (compiled_store_inv _ _ _ _ _ _ _ _ Hc Hf Hh)
    as (a1 & Hw & Hd & Hs & Hsh & Hread).
  rewrite Hlines in Hs.
  pose proof (stream_last_write _ _ _ _ _ _ _ _ _ Hv Hm Hd Hs Hwr Hno) as Hrow.
  pose proof (writes_nonneg _ _ _ _ Hv Hwr) as Hpos.
  eexists. split; [exact Hread|].
  unfold getitem. pose proof (lookup_lt_Some _ _ _ Hrow) as Hlt.
  rewrite normalize_index_nonneg by (rewrite length_insert; lia).
  unfold mbind, result_bind. rewrite list_lookup_insert_ne by lia.
  by rewrite Hrow.
Qed.

(** X9. When the compilation returns, every row of the compiled store that
    no line of the file writes is all zeros. *)
Theorem compiled_row_untouched (maxlen : nat) (vectors_path final_path : Path)
    (fs fs' : gmap Path (file float32)) (f : string) (words dimensions : Z)
    (r : nat) :
  0 < vocab_size -> (0 < maxlen)%nat ->
  compile' maxlen vectors_path final_path fs = (fs', Ok ()) ->
  read_text fs vectors_path = Ok f ->
  parse_header (Py.readline f) = Ok (words, dimensions) ->
  Z.of_nat r < words ->
  (forall l, l ∈ Py.lines f -> forall n, ~ writes dimensions l (Z.of_nat r) n) ->
  exists store : ndarray float32,
    np_memmap_r fs' final_path words dimensions = Ok store
    /\ getitem store (Z.of_nat r) = Ok (replicate (Z.to_nat dimensions) zero).
Proof.
  intros Hv Hm Hc Hf Hh Hr Hno.
  destruct (compiled_store_inv _ _ _ _ _ _ _ _ Hc Hf Hh)
    as (a1 & Hw & Hd & Hs & [Hlen Hrows] & Hread).
  pose proof (stream_frame _ _ _ _ _ _ Hv Hm Hd Hs Hno) as Hrow.
  rewrite lookup_replicate_2 in Hrow by lia.
  eexists. split; [exact Hread|].
  unfold getitem. rewrite normalize_index_nonneg by (rewrite length_insert; lia).
  unfold mbind, result_bind. rewrite Nat2Z.id.
  destruct r as [|r].
  - by rewrite list_lookup_insert_eq by lia.
  - rewrite list_lookup_insert_ne by lia. by rewrite Hrow.
Qed.

(** ** The header line in the loop *)

Lemma lines_readline (f : string) (words dimensions : Z) :
  parse_header (Py.readline f) = Ok (words, dimensions) ->
  Py.lines f = Py.readline f :: tail (Py.lines f).
Proof.
  unfold Py.readline. destruct (Py.lines f) as [|l ls]; [|done].
  by vm_compute.
Qed.

(** X10. The loop of line 121 starts again at the first line of the file.
    With 2 columns or more the header line, which has 2 fields, never
    passes the test of line 124: the loop over the file does what it
    does over the lines after the header. *)
Theorem header_line_skipped (maxlen : nat) (f : string) (words dimensions : Z)
    (a : ndarray float32) :
  parse_header (Py.readline f) = Ok (words, dimensions) ->
  2 <= dimensions ->
  stream' maxlen dimensions a (Py.lines f)
  = stream' maxlen dimensions a (tail (Py.lines f)).
Proof.
  intros Hh Hd. rewrite (lines_readline f words dimensions Hh) at 1. simpl.
  rewrite loop_body_unguarded; [done|lia|]. left.
  destruct (parse_header_cases (Py.readline f))
    as [(sw & sd & w & d & -> & _)|[_ Hraise]]; [simpl; lia|congruence].
Qed.

(** X11. With 1 column the header line is a data line like any other: when
    its first field has 3 characters or more and [np.float32] reads its
    second field, the loop writes that number into the row at the id of
    the first field, or raises [IndexError] when there is no such
    row. *)
Theorem header_line_stored (maxlen : nat) (line sw sd : string) (words : Z)
    (x : float32) (a : ndarray float32) :
  0 < vocab_size -> (0 < maxlen)%nat ->
  parse_header line = Ok (words, 1) ->
  Py.split line = [sw; sd] ->
  (3 <= String.length sw)%nat ->
  np_float32 sd = Some x ->
  loop_body' maxlen 1 a line
  = if decide (token_id sw < Z.of_nat (length a))
    then Ok (<[Z.to_nat (token_id sw) := [x]]> a) else Raise IndexError.
Proof.
  intros Hv Hm _ Hs Hlen Hx.
  apply loop_body_writes; try done.
  split; [|done]. exists sw, [sd].
  split; [done|]. split; [simpl; lia|]. split; [lia|]. split; [|done].
  unfold parse_numbers. simpl. by rewrite Hx.
Qed.

(** ** The download *)

Lemma string_app_nil_r (s : string) : s +:+ EmptyString = s.
Proof.
  induction s as [|c s IH]; [done|].
  change (String c (s +:+ EmptyString) = String c s). by f_equal.
Qed.

Lemma string_app_assoc (a b c : string) : (a +:+ b) +:+ c = a +:+ (b +:+ c).
Proof.
  induction a as [|x a IH]; [done|].
  change (String x ((a +:+ b) +:+ c) = String x (a +:+ (b +:+ c))). by f_equal.
Qed.

(** Writing the chunks that are not empty, one after the other, writes
    all the chunks one after the other. *)
Lemma written_chunks (chunks : list string) (f : string) :
  fold_left (fun f data => match data with
                           | EmptyString => f
                           | _ => f +:+ data
                           end) chunks f
  = f +:+ foldr String.append EmptyString chunks.
Proof.
  revert f. induction chunks as [|data chunks IH]; intros f; simpl.
  - by rewrite string_app_nil_r.
  - rewrite IH. destruct data as [|c data]; [done|]. by rewrite string_app_assoc.
Qed.

Lemma download_fresh (vectors_path : Path) (r : response)
    (fs : gmap Path (file float32)) :
  fs !! vectors_path = None ->
  vectors_path.2 = ".vec" ->
  (forall s, content_length r = Some s -> exists n, Py.int_of_str s = Ok n) ->
  iter_error r = None ->
  download vectors_path r fs
  = (<[vectors_path := Text (foldr String.append EmptyString (iter_content r))]>
       (delete (with_suffix vectors_path ".tmp") fs), Ok ()).
Proof.
  intros Hnone Hsuffix Hlen Herr. unfold download. rewrite Hnone, Herr.
  assert (Hsize : exists n, match content_length r with
                            | Some s => Py.int_of_str s
                            | None => Ok 0
                            end = Ok n).
  { destruct (content_length r) as [s|]; [by apply Hlen|by exists 0]. }
  destruct Hsize as [n ->].
  unfold rename. rewrite lookup_insert_eq.
  rewrite (written_chunks _ EmptyString). simpl.
  by rewrite delete_insert_eq.
Qed.

(** X12. A download that goes through: when the vector file is not there,
    the [content-length] header, if any, is an integer, and the
    iteration over the chunks ends normally, the vector file holds all
    the chunks one after the other, the temporary path is free and
    every other path is as before. *)
Theorem download_publishes (vectors_path : Path) (r : response)
    (fs : gmap Path (file float32)) :
  fs !! vectors_path = None ->
  vectors_path.2 = ".vec" ->
  (forall s, content_length r = Some s -> exists n, Py.int_of_str s = Ok n) ->
  iter_error r = None ->
  exists fs',
    download vectors_path r fs = (fs', Ok ())
    /\ fs' !! vectors_path
       = Some (Text (foldr String.append EmptyString (iter_content r)))
    /\ fs' !! with_suffix vectors_path ".tmp" = None
    /\ forall p, p <> vectors_path -> p <> with_suffix vectors_path ".tmp" ->
                 fs' !! p = fs !! p.
Proof.
  intros Hnone Hsuffix Hlen Herr.
  assert (Hne : with_suffix vectors_path ".tmp" <> vectors_path).
  { destruct vectors_path as [name s]. simpl in Hsuffix. subst s.
    unfold with_suffix. simpl. congruence. }
  eexists. split; [by apply download_fresh|].
  split; [apply lookup_insert_eq|]. split.
  - rewrite lookup_insert_ne by done. apply lookup_delete_eq.
  - intros p Hp Hpt. by rewrite lookup_insert_ne, lookup_delete_ne.
Qed.

(** X13. A download that fails, on a [content-length] header that is no
    integer or on a connection that breaks between two chunks, leaves
    no vector file: the file system changes at most at the temporary
    path, and not at all when the header is at fault. *)
Theorem download_failure (vectors_path : Path) (r : response)
    (fs fs' : gmap Path (file float32)) (e : exn) :
  vectors_path.2 = ".vec" ->
  download vectors_path r fs = (fs', Raise e) ->
  fs' !! vectors_path = None
  /\ (forall p, p <> with_suffix vectors_path ".tmp" -> fs' !! p = fs !! p)
  /\ (iter_error r = None -> fs' = fs).
Proof.
  intros Hsuffix. unfold download.
  assert (Hne : vectors_path <> with_suffix vectors_path ".tmp").
  { destruct vectors_path as [name s]. simpl in Hsuffix. subst s.
    unfold with_suffix. simpl. congruence. }
  destruct (fs !! vectors_path) eqn:Hnone; [done|].
  destruct (match content_length r with
            | Some s => Py.int_of_str s
            | None => Ok 0
            end) as [n|e'].
  - destruct (iter_error r) as [e'|].
    + intros [= <- <-]. split; [by rewrite lookup_insert_ne|].
      split; [|done]. intros p Hp. by rewrite lookup_insert_ne.
    + unfold rename. by rewrite lookup_insert_eq.
  - by intros [= <- <-].
Qed.

(** X14. Construction from nothing: when the vector file is not there and the
    download goes through, the constructor does what the compilation and
    the opening do on the file system that holds the downloaded text as
    the vector file and nothing at the temporary path. *)
Theorem construct_downloads_then_inits (language : string) (maxlen : nat)
    (r : response) (fs : gmap Path (file float32)) :
  let vectors_path := download_path "fasttext" language in
  fs !! vectors_path = None ->
  (forall s, content_length r = Some s -> exists n, Py.int_of_str s = Ok n) ->
  iter_error r = None ->
  construct' language maxlen r fs
  = init' language maxlen
      (<[vectors_path := Text (foldr String.append EmptyString (iter_content r))]>
         (delete (with_suffix vectors_path ".tmp") fs)).
Proof.
  intros vectors_path Hnone Hlen Herr. unfold construct. fold vectors_path.
  by rewrite download_fresh.
Qed.

(** X15. The compiled store does not replace the vector file. When the vector
    file has been removed and the store is still there, the constructor
    downloads the vector file again, does not compile, leaves the store
    as it is, and opens it with the header of the new download. *)
Theorem construct_after_vector_file_removed (language : string) (maxlen : nat)
    (r : response) (fs : gmap Path (file float32)) (x : file float32) :
  let vectors_path := download_path "fasttext" language in
  let final_path := with_suffix vectors_path ".numpy" in
  let fs' := (construct' language maxlen r fs).1 in
  fs !! vectors_path = None ->
  fs !! final_path = Some x ->
  (forall s, content_length r = Some s -> exists n, Py.int_of_str s = Ok n) ->
  iter_error r = None ->
  fs' !! vectors_path
  = Some (Text (foldr String.append EmptyString (iter_content r)))
  /\ fs' !! final_path = Some x
  /\ (construct' language maxlen r fs).2 = open_store vectors_path final_path fs'.
Proof.
  intros vectors_path final_path fs' Hnone Hfinal Hlen Herr.
  unfold fs', construct. fold vectors_path.
  rewrite download_fresh by done. unfold init. fold vectors_path final_path.
  assert (Hlookup : (<[vectors_path :=
                        Text (foldr String.append EmptyString (iter_content r))]>
                       (delete (with_suffix vectors_path ".tmp") fs)) !! final_path
                    = Some x).
  { rewrite lookup_insert_ne, lookup_delete_ne; [done| |];
      unfold final_path, vectors_path, with_suffix, download_path; simpl; congruence. }
  rewrite Hlookup. simpl. split; [apply lookup_insert_eq|]. split; [done|].
  by destruct (open_store _ _ _).
Qed.

(** X16. A store left by an earlier compilation is trusted. When a file is
    at the final path and holds fewer floats than the header of the
    vector file asks for, the constructor compiles nothing, leaves the
    file system as it is and fails with a [ValueError]. *)
Theorem init_stale_store_too_short (language : string) (maxlen : nat)
    (fs : gmap Path (file float32)) (f : string) (words dimensions : Z)
    (v : list float32) :
  let vectors_path := download_path "fasttext" language in
  let final_path := with_suffix vectors_path ".numpy" in
  read_text fs vectors_path = Ok f ->
  parse_header (Py.readline f) = Ok (words, dimensions) ->
  fs !! final_path = Some (Array v) ->
  Z.of_nat (length v) < words * dimensions ->
  init' language maxlen fs = (fs, Raise ValueError).
Proof.
  intros vectors_path final_path Hf Hh Hv Hshort.
  unfold init. fold vectors_path final_path. rewrite Hv. simpl.
  unfold open_store. rewrite Hf. simpl. rewrite Hh. simpl.
  unfold np_memmap_r. rewrite Hv.
  rewrite (proj2 (Z.leb_gt _ _) Hshort).
  by rewrite andb_false_r.
Qed.

End ConstructorProperties.


(** * The rest of the constructor, worked *)

Lemma init_frame_witness :
  (forall p, p <> Scenario.final_path -> p <> Scenario.tmp_path ->
             (Scenario.init Scenario.small "en" 1024
                (Scenario.fs_of Scenario.hello_hi)).1 !! p
             = Scenario.fs_of Scenario.hello_hi !! p)
  /\ (Scenario.init Scenario.small "en" 1024
        (Scenario.fs_of Scenario.hello_hi)).1 !! Scenario.vectors_path
     = Scenario.fs_of Scenario.hello_hi !! Scenario.vectors_path.
Proof.
  exact (init_frame Q Scenario.decimal 0%Q Scenario.hash3 31 "#" "<pad>"
           Scenario.small "en" 1024 (Scenario.fs_of Scenario.hello_hi)).
Defined.

Lemma compiled_file_size_witness :
  exists (f : string) (words dimensions : Z) (v : list Q),
    read_text Q (Scenario.fs_of Scenario.hello_hi) Scenario.vectors_path = Ok f
    /\ parse_header (Py.readline f) = Ok (words, dimensions)
    /\ Scenario.fs_compiled !! Scenario.final_path = Some (Array v)
    /\ Z.of_nat (length v) = words * dimensions.
Proof.
  apply (compiled_file_size Q Scenario.decimal 0%Q Scenario.hash3 31 "#" "<pad>"
           Scenario.small 1024 Scenario.vectors_path Scenario.final_path
           (Scenario.fs_of Scenario.hello_hi) Scenario.fs_compiled).
  vm_compute. reflexivity.
Defined.

Lemma construct_idempotent_witness :
  Scenario.construct Scenario.small "en" 1024 Scenario.cut
    (Scenario.construct Scenario.small "en" 1024 Scenario.served ∅).1
  = ((Scenario.construct Scenario.small "en" 1024 Scenario.served ∅).1,
     Ok [[0%Q; 0%Q]; [0%Q; 0%Q]; [1%Q; 2%Q]]).
Proof.
  apply (construct_idempotent Q Scenario.decimal 0%Q Scenario.hash3 31 "#" "<pad>"
           Scenario.small "en" 1024 Scenario.served Scenario.cut ∅).
  vm_compute. reflexivity.
Defined.

Lemma opened_store_shape_witness :
  shaped Q (Z.to_nat 10) (Z.to_nat 2) Scenario.store_ten.
Proof.
  apply (opened_store_shape Q Scenario.vectors_path Scenario.final_path
           (Scenario.init 10 "en" 1024 (Scenario.fs_of Scenario.ten)).1
           Scenario.ten 10 2 Scenario.store_ten).
  - vm_compute. reflexivity.
  - vm_compute. reflexivity.
  - vm_compute. reflexivity.
Defined.

Lemma opened_store_row_major_witness :
  exists row x,
    [[0%Q; 0%Q]; [0%Q; 0%Q]; [1%Q; 2%Q]] !! 2%nat = Some row
    /\ row !! 1%nat = Some x
    /\ [0%Q; 0%Q; 0%Q; 0%Q; 1%Q; 2%Q] !! (2 * Z.to_nat 2 + 1)%nat = Some x.
Proof.
  apply (opened_store_row_major Q Scenario.vectors_path Scenario.final_path
           Scenario.fs_compiled Scenario.hello_hi 3 2
           [[0%Q; 0%Q]; [0%Q; 0%Q]; [1%Q; 2%Q]]
           [0%Q; 0%Q; 0%Q; 0%Q; 1%Q; 2%Q] 2 1).
  - vm_compute. reflexivity.
  - vm_compute. reflexivity.
  - vm_compute. reflexivity.
  - vm_compute. reflexivity.
  - reflexivity.
  - reflexivity.
Defined.

Lemma flush_then_read_witness :
  np_memmap_r Q
    {[ Scenario.final_path := Array (concat Scenario.zeros_3x2 ++ [7%Q; 8%Q]) ]}
    Scenario.final_path 3 2
  = Ok Scenario.zeros_3x2.
Proof.
  apply (flush_then_read Q _ Scenario.final_path 3 2 Scenario.zeros_3x2 [7%Q; 8%Q]).
  - reflexivity.
  - reflexivity.
  - split; [reflexivity|]. repeat constructor.
  - vm_compute. reflexivity.
Defined.

Lemma line_touches_one_row_witness :
  length [[0%Q; 0%Q]; [0%Q; 0%Q]; [1%Q; 2%Q]] = length Scenario.zeros_3x2
  /\ forall r : nat,
      (forall token values,
         Py.split "hello 1.0 2.0" = token :: values ->
         Z.of_nat r <> Scenario.token_id Scenario.small token) ->
      [[0%Q; 0%Q]; [0%Q; 0%Q]; [1%Q; 2%Q]] !! r = Scenario.zeros_3x2 !! r.
Proof.
  apply (line_touches_one_row Q Scenario.decimal Scenario.hash3 31 "#" "<pad>"
           Scenario.small 1024 2 Scenario.zeros_3x2
           [[0%Q; 0%Q]; [0%Q; 0%Q]; [1%Q; 2%Q]] "hello 1.0 2.0").
  - reflexivity.
  - lia.
  - reflexivity.
  - vm_compute. reflexivity.
Defined.

Lemma compiled_row_last_write_witness :
  exists store : ndarray Q,
    np_memmap_r Q Scenario.fs_collide Scenario.final_path 10 2 = Ok store
    /\ getitem Q store 9 = Ok [3%Q; 4%Q].
Proof.
  apply (compiled_row_last_write Q Scenario.decimal 0%Q Scenario.hash3 31 "#" "<pad>"
           10 1024 Scenario.vectors_path Scenario.final_path
           (Scenario.fs_of Scenario.collide) Scenario.fs_collide Scenario.collide 10 2
           [("10 2" +:+ Scenario.LF)%string; ("matrix 1.0 2.0" +:+ Scenario.LF)%string]
           [("world 5.0 6.0" +:+ Scenario.LF)%string]
           ("and 3.0 4.0" +:+ Scenario.LF)%string 9 [3%Q; 4%Q]).
  - reflexivity.
  - lia.
  - vm_compute. reflexivity.
  - vm_compute. reflexivity.
  - vm_compute. reflexivity.
  - vm_compute. reflexivity.
  - split; [|reflexivity]. exists "and"%string, ["3.0"%string; "4.0"%string].
    split; [vm_compute; reflexivity|]. split; [reflexivity|]. split; [simpl; lia|].
    split; vm_compute; reflexivity.
  - discriminate.
  - intros l Hl n [(token & values & Hs & _ & _ & _ & Hid) _].
    apply list_elem_of_singleton in Hl. subst l.
    vm_compute in Hs. injection Hs as <- _.
    vm_compute in Hid. discriminate.
Defined.

Lemma compiled_row_untouched_witness :
  exists store : ndarray Q,
    np_memmap_r Q Scenario.fs_collide Scenario.final_path 10 2 = Ok store
    /\ getitem Q store (Z.of_nat 3) = Ok (replicate (Z.to_nat 2) 0%Q).
Proof.
  apply (compiled_row_untouched Q Scenario.decimal 0%Q Scenario.hash3 31 "#" "<pad>"
           10 1024 Scenario.vectors_path Scenario.final_path
           (Scenario.fs_of Scenario.collide) Scenario.fs_collide Scenario.collide 10 2 3).
  - reflexivity.
  - lia.
  - vm_compute. reflexivity.
  - vm_compute. reflexivity.
  - vm_compute. reflexivity.
  - reflexivity.
  - intros l Hl n [(token & values & Hs & _ & _ & _ & Hid) _].
    change (Py.lines Scenario.collide) with Scenario.collide_lines in Hl.
    unfold Scenario.collide_lines in Hl.
    repeat (apply elem_of_cons in Hl as [->|Hl]);
      try (vm_compute in Hs; injection Hs as <- _; vm_compute in Hid; discriminate).
    by apply elem_of_nil in Hl.
Defined.

Lemma header_line_skipped_witness :
  Scenario.stream Scenario.small 1024 2 Scenario.zeros_3x2 (Py.lines Scenario.hello_hi)
  = Scenario.stream Scenario.small 1024 2 Scenario.zeros_3x2
      (tail (Py.lines Scenario.hello_hi)).
Proof.
  apply (header_line_skipped Q Scenario.decimal Scenario.hash3 31 "#" "<pad>"
           Scenario.small 1024 Scenario.hello_hi 3 2 Scenario.zeros_3x2).
  - vm_compute. reflexivity.
  - lia.
Defined.

Lemma header_line_stored_witness :
  Scenario.loop_body 100 1024 1 (replicate 100 [0%Q]) ("100 1" +:+ Scenario.LF)
  = if decide (Scenario.token_id 100 "100" < Z.of_nat (length (replicate 100 [0%Q])))
    then Ok (<[Z.to_nat (Scenario.token_id 100 "100") := [1%Q]]> (replicate 100 [0%Q]))
    else Raise IndexError.
Proof.
  apply (header_line_stored Q Scenario.decimal Scenario.hash3 31 "#" "<pad>"
           100 1024 ("100 1" +:+ Scenario.LF)%string "100" "1" 100 1%Q
           (replicate 100 [0%Q])).
  - reflexivity.
  - lia.
  - vm_compute. reflexivity.
  - vm_compute. reflexivity.
  - simpl. lia.
  - vm_compute. reflexivity.
Defined.

Lemma download_publishes_witness :
  exists fs',
    Scenario.download Scenario.vectors_path Scenario.served ∅ = (fs', Ok ())
    /\ fs' !! Scenario.vectors_path
       = Some (Text (foldr String.append EmptyString (iter_content Scenario.served)))
    /\ fs' !! with_suffix Scenario.vectors_path ".tmp" = None
    /\ forall p, p <> Scenario.vectors_path ->
                 p <> with_suffix Scenario.vectors_path ".tmp" ->
                 fs' !! p = (∅ : gmap Path (file Q)) !! p.
Proof.
  apply (download_publishes Q Scenario.vectors_path Scenario.served ∅).
  - reflexivity.
  - reflexivity.
  - intros s [= <-]. exists 31. vm_compute. reflexivity.
  - reflexivity.
Defined.

Lemma download_failure_witness :
  (Scenario.download Scenario.vectors_path Scenario.cut ∅).1 !! Scenario.vectors_path
  = None
  /\ (forall p, p <> with_suffix Scenario.vectors_path ".tmp" ->
                (Scenario.download Scenario.vectors_path Scenario.cut ∅).1 !! p
                = (∅ : gmap Path (file Q)) !! p)
  /\ (iter_error Scenario.cut = None ->
      (Scenario.download Scenario.vectors_path Scenario.cut ∅).1 = ∅).
Proof.
  apply (download_failure Q Scenario.vectors_path Scenario.cut ∅
           (Scenario.download Scenario.vectors_path Scenario.cut ∅).1 OSError).
  - reflexivity.
  - vm_compute. reflexivity.
Defined.

Lemma construct_downloads_then_inits_witness :
  Scenario.construct Scenario.small "en" 1024 Scenario.served ∅
  = Scenario.init Scenario.small "en" 1024
      (<[Scenario.vectors_path :=
           Text (foldr String.append EmptyString (iter_content Scenario.served))]>
         (delete (with_suffix Scenario.vectors_path ".tmp") ∅)).
Proof.
  apply (construct_downloads_then_inits Q Scenario.decimal 0%Q Scenario.hash3 31 "#"
           "<pad>" Scenario.small "en" 1024 Scenario.served ∅).
  - reflexivity.
  - intros s [= <-]. exists 31. vm_compute. reflexivity.
  - reflexivity.
Defined.

Lemma construct_after_vector_file_removed_witness :
  (Scenario.construct Scenario.small "en" 1024 Scenario.served Scenario.fs_store_only).1
    !! Scenario.vectors_path
  = Some (Text (foldr String.append EmptyString (iter_content Scenario.served)))
  /\ (Scenario.construct Scenario.small "en" 1024 Scenario.served
        Scenario.fs_store_only).1 !! Scenario.final_path
     = Some (Array [0%Q; 0%Q; 0%Q; 0%Q; 1%Q; 2%Q])
  /\ (Scenario.construct Scenario.small "en" 1024 Scenario.served
        Scenario.fs_store_only).2
     = open_store Q Scenario.vectors_path Scenario.final_path
         (Scenario.construct Scenario.small "en" 1024 Scenario.served
            Scenario.fs_store_only).1.
Proof.
  apply (construct_after_vector_file_removed Q Scenario.decimal 0%Q Scenario.hash3 31
           "#" "<pad>" Scenario.small "en" 1024 Scenario.served Scenario.fs_store_only
           (Array [0%Q; 0%Q; 0%Q; 0%Q; 1%Q; 2%Q])).
  - vm_compute. reflexivity.
  - vm_compute. reflexivity.
  - intros s [= <-]. exists 31. vm_compute. reflexivity.
  - reflexivity.
Defined.

Lemma init_stale_store_too_short_witness :
  Scenario.init 10 "en" 1024 Scenario.fs_stale = (Scenario.fs_stale, Raise ValueError).
Proof.
  apply (init_stale_store_too_short Q Scenario.decimal 0%Q Scenario.hash3 31 "#" "<pad>"
           10 "en" 1024 Scenario.fs_stale Scenario.ten 10 2 [1%Q; 2%Q; 3%Q]).
  - vm_compute. reflexivity.
  - vm_compute. reflexivity.
  - vm_compute. reflexivity.
  - reflexivity.
Defined.
